(** * Visualjournal, app.py: prompt construction, generation client,
      scene wrapper and dataset summarizer.

    The development embeds the four helper functions of [app.py]
    ([generate_paperscript], [build_paper_html], [build_journal_prompt],
    [summarize_dataframe], [build_table_prompt]) together with the constant
    [DEFAULT_FALLBACK_PAPERSCRIPT], and proves the properties the
    specification states about them.

    Conventions.
    - A Python [str] is a [string]: the sequence of the bytes of its UTF-8
      encoding.  Concatenation, equality and the substring relation of
      Python strings are those of their encodings.
    - A Python [int] is a [Z].
    - A call that may raise returns a [result]; the generation client, which
      also talks to the remote service, runs in the monad [M] that records
      every remote call.
    - An argument with a default value is an [option]: [None] is the call
      that leaves the argument out. *)

From Stdlib Require Import String Ascii List ZArith Bool Arith Lia.
From Stdlib Require QArith.
From Stdlib Require Import DecimalString.
Import ListNotations.
Local Open Scope string_scope.

(** ** Python values: strings, exceptions, results *)

Module Py.

(** The characters the templates cannot write inside a literal. *)
Definition dq : string := String (ascii_of_nat 34) EmptyString.
Definition nl : string := String (ascii_of_nat 10) EmptyString.

(** [sep.join(xs)] is [String.concat sep xs]. *)
(** [bool(s)] of a string: true unless the string is empty. *)
Definition truthy (s : string) : bool :=
  match s with
  | EmptyString => false
  | String _ _ => true
  end.

(** [str(n)] of an integer. *)
Definition str_of_int (n : Z) : string := NilZero.string_of_int (Z.to_int n).

(** The exception classes the module can meet.  [OtherError] stands for any
    class that is neither [AttributeError] nor [ValueError] (transport
    failures of the SDK, for one). *)
Inductive exn : Type :=
| AttributeError (msg : string)
| ValueError (msg : string)
| OtherError (cls msg : string).

(** [isinstance(e, AttributeError)]: what [except AttributeError] catches. *)
Definition is_AttributeError (e : exn) : bool :=
  match e with
  | AttributeError _ => true
  | _ => false
  end.

Inductive result (A : Type) : Type :=
| Return (a : A)
| Raise (e : exn).
Arguments Return {A} a.
Arguments Raise {A} e.

Definition bind_result {A B : Type} (r : result A) (k : A -> result B) : result B :=
  match r with
  | Return a => k a
  | Raise e => Raise e
  end.

(** [try: body  except AttributeError: handler] *)
Definition try_except_AttributeError {A : Type} (body : result A) (handler : result A)
  : result A :=
  match body with
  | Return a => Return a
  | Raise e => if is_AttributeError e then handler else Raise e
  end.

(** Substrings.  [prefixb p s]: [s.startswith(p)]; [count_sub p s]: the number
    of positions of [s] at which [p] occurs; [count_char c s]: the number of
    occurrences of the character [c]. *)
Fixpoint prefixb (p s : string) : bool :=
  match p with
  | EmptyString => true
  | String x p' =>
      match s with
      | EmptyString => false
      | String y s' => Ascii.eqb x y && prefixb p' s'
      end
  end.

Fixpoint count_sub (p s : string) : nat :=
  match s with
  | EmptyString => if prefixb p s then 1 else 0
  | String _ s' => (if prefixb p s then 1 else 0) + count_sub p s'
  end.

Fixpoint count_char (c : ascii) (s : string) : nat :=
  match s with
  | EmptyString => 0
  | String y s' => (if Ascii.eqb c y then 1 else 0) + count_char c s'
  end.

Fixpoint mem_char (c : ascii) (s : string) : bool :=
  match s with
  | EmptyString => false
  | String y s' => Ascii.eqb c y || mem_char c s'
  end.

Definition first_char (s : string) : option ascii :=
  match s with
  | EmptyString => None
  | String c _ => Some c
  end.

Fixpoint last_char (s : string) : option ascii :=
  match s with
  | EmptyString => None
  | String c s' =>
      match s' with
      | EmptyString => Some c
      | String _ _ => last_char s'
      end
  end.

(** [sub in s] *)
Definition substringb (sub s : string) : bool := negb (Nat.eqb (count_sub sub s) 0).

(** [s] contains [sub] as a contiguous run of characters. *)
Definition is_substring (sub s : string) : Prop :=
  exists pre post, s = pre ++ sub ++ post.

End Py.
Import Py.

Notation "x <- c1 ;; c2" := (bind_result c1 (fun x => c2))
  (at level 61, c1 at next level, right associativity).

(** ** Process configuration: the credential *)

(** [os.environ], after [load_dotenv()] has added the entries of the .env
    file. *)
Definition Environ : Type := string -> option string.

(** [os.getenv(key, default)] *)
Definition getenv (environ : Environ) (key default : string) : string :=
  match environ key with
  | Some v => v
  | None => default
  end.

(** The module-level global, read once when the module is loaded:
    [GEMINI_API_KEY = os.getenv("GEMINI_API_KEY", "")]. *)
Definition GEMINI_API_KEY (environ : Environ) : string :=
  getenv environ "GEMINI_API_KEY" "".

(** ** Fallback PaperScript (no API) *)

Definition DEFAULT_FALLBACK_PAPERSCRIPT : string :=
  "
// Fallback PaperScript demo (no API key found)
// Simple hand-drawn circle in a night sky.

var W = 900, H = 600;
view.viewSize = new Size(W, H);

var bg = new Path.Rectangle(view.bounds);
bg.fillColor = '#050b1a';

function j(a){ return (Math.random()-0.5)*a; }

function handCircle(center, radius, strokeCol, fillCol){
    var s = 40;
    var p = new Path();
    for (var i=0;i<s;i++){
        var ang = 360/s * i;
        var r = radius + j(radius*0.3);
        p.add(center.add(new Point({length:r, angle:ang})));
    }
    p.closed = true;
    p.strokeColor = strokeCol || new Color(1,1,1,0.9);
    p.strokeWidth = 1.4;
    if (fillCol) p.fillColor = fillCol;
    return p;
}

var center = new Point(W/2, H/2);
var moon = handCircle(center, 80,
                      new Color(1,1,1,0.9),
                      new Color(0.98,0.98,0.94, 0.95));

var title = new PointText({
    point: new Point(40, 40),
    content: " ++ dq ++ "Fallback Visual ¬∑ Add GEMINI_API_KEY to get custom doodles" ++ dq ++ ",
    justification: 'left',
    fillColor: new Color(1,1,1,0.85),
    fontFamily: 'Helvetica',
    fontSize: 16
});

var t = 0;
function onFrame(event){
    t += event.delta;
    moon.scale(1 + Math.sin(t*0.8)*0.0015);
    moon.fillColor.hue += 0.1;
}
".

(** ** The generation client *)

(** [genai.GenerativeModel(name)] *)
Record GenerativeModel : Type := { model_name : string }.

(** [generation_config={"temperature": 0.9}]: the temperature is kept as the
    decimal the literal denotes. *)
Record GenerationConfig : Type := { temperature : QArith_base.Q }.

(** Reading an attribute of an object of the SDK: it has a value, or the
    read raises ([AttributeError] when the object has no such attribute, any
    exception when the attribute is a property whose getter raises). *)
Inductive attr (A : Type) : Type :=
| Attr (v : A)
| AttrRaises (e : exn).
Arguments Attr {A} v.
Arguments AttrRaises {A} e.

(** What [generate_content] returns, as far as the module looks at it:
    [response.text] and [str(response)]. *)
Record Response : Type := {
  text : attr string;
  str : string
}.

Definition getattr_text (response : Response) : result string :=
  match text response with
  | Attr v => Return v
  | AttrRaises e => Raise e
  end.

(** One call of the remote service, as the log keeps it. *)
Record Call : Type := {
  call_model : GenerativeModel;
  call_prompt : string;
  call_config : GenerationConfig
}.

(** The remote service: what a call returns or raises. *)
Definition Remote : Type := Call -> result Response.

(** Computations of the generation client: they read the log of the remote
    calls made so far and return it extended. *)
Definition M (A : Type) : Type := list Call -> result A * list Call.

Definition ret {A : Type} (a : A) : M A := fun log => (Return a, log).

Definition bind {A B : Type} (m : M A) (k : A -> M B) : M B :=
  fun log =>
    match m log with
    | (Return a, log') => k a log'
    | (Raise e, log') => (Raise e, log')
    end.

Definition lift {A : Type} (r : result A) : M A := fun log => (r, log).

Notation "x <~ c1 ;; c2" := (bind c1 (fun x => c2))
  (at level 61, c1 at next level, right associativity).

(** [model.generate_content(prompt, generation_config=config)] *)
Definition generate_content (remote : Remote) (model : GenerativeModel)
  (prompt : string) (config : GenerationConfig) : M Response :=
  fun log =>
    let call := {| call_model := model; call_prompt := prompt; call_config := config |} in
    (remote call, (log ++ [call])%list).

Definition generate_paperscript (environ : Environ) (remote : Remote) (prompt : string)
  : M string :=
  if negb (truthy (GEMINI_API_KEY environ)) then
    (* Fallback: a tiny static demo if no API key *)
    ret DEFAULT_FALLBACK_PAPERSCRIPT
  else
    let model := {| model_name := "gemini-1.5-pro" |} in
    response <~ generate_content remote model prompt
                  {| temperature := QArith_base.Qmake 9 10 |} ;;
    lift (try_except_AttributeError
            (getattr_text response)
            (* Very rough fallback *)
            (Return (str response))).

(** ** Paper.js HTML wrapper *)

Definition build_paper_html (paperscript_code : string) (canvas_id_arg : option string)
  : string :=
  let canvas_id := match canvas_id_arg with Some v => v | None => "dreamCanvas" end in
  let html := "
<!DOCTYPE html>
<html>
  <head>
    <meta charset=" ++ dq ++ "UTF-8" ++ dq ++ " />
    <script type=" ++ dq ++ "text/javascript" ++ dq ++ " src=" ++ dq ++ "https://cdnjs.cloudflare.com/ajax/libs/paper.js/0.12.15/paper-full.min.js" ++ dq ++ "></script>
    <style>
      html, body {
        margin: 0;
        padding: 0;
        background: #111;
      }
      canvas {
        width: 100%;
        height: 100%;
      }
      #container {
        width: 100%;
        height: 100vh;
      }
    </style>
  </head>
  <body>
    <div id=" ++ dq ++ "container" ++ dq ++ ">
      <canvas id=" ++ dq ++ canvas_id ++ dq ++ " resize></canvas>
    </div>
    <script type=" ++ dq ++ "text/paperscript" ++ dq ++ " canvas=" ++ dq ++ canvas_id ++ dq ++ ">
" ++ paperscript_code ++ "
    </script>
  </body>
</html>
    " in
  html.

(** ** Helpers: build prompts *)

Definition build_journal_prompt (user_text context_type : string) : string :=
  "
You are a creative code generator that ONLY outputs PaperScript code
for the Paper.js library (no HTML, no markdown, no explanations).

Goal:
- Turn the following " ++ context_type ++ " journal text into a hand-drawn-style,
  animated visualization, in the spirit of Giorgia Lupi / Data Humanism.

Requirements:
- Use an off-white paper-like background or a context-appropriate background
  (for example, deep night blue for night oceans).
- Use wobbly, imperfect lines and circles by jittering points, as if drawn by hand.
- Use soft, semi-transparent colors with an ink/watercolor vibe.
- Add gentle, meaningful motion via onFrame(event):
  - calm scenes: slow floating or breathing motion
  - intense scenes: more pronounced, but still organic motion

Story context:
" ++ dq ++ dq ++ dq ++ user_text ++ dq ++ dq ++ dq ++ "


Visual design rules:
- Do NOT draw a calendar grid here unless the text clearly describes schedule-like data.
- Instead, choose a metaphor that fits the story:
  - If the story is about a dream of swimming across seas at night, use curves of the earth,
    waves, stars, and two swimmers.
  - If it is about a warm memory at a caf√©, use circular tables, warm light halos, etc.
- Place any textual annotations as PointText in a subtle way (small caption or title).
- The drawing must fill a reasonably large canvas, for example about 1000x650.
  You can set it using:
    view.viewSize = new Size(1000, 650);

PaperScript constraints:
- Assume Paper.js is already imported.
- Do not include HTML or <script> tags.
- Start directly with PaperScript (JavaScript-like) code.
- Define an onFrame(event) handler if you want animation.

Output:
- ONLY valid PaperScript code.
    ".

(** ** The pandas interface

    pandas is an external library.  The model keeps of a [DataFrame] what
    [summarize_dataframe] reads: the column labels with their dtypes, and the
    rows in order.  Column labels may repeat: [df[col]] is then the frame of
    the columns that carry the label.  The operations follow pandas 1.x (1.1 to 1.5, the versions whose [describe]
    accepts the keyword [datetime_is_numeric] that the module passes), on a
    platform whose line terminator is the newline character. *)

Inductive dtype : Type :=
| int64
| float64
| bool_
| object
| datetime64_ns
| other_dtype (name : string).

(** [str(dtype)] *)
Definition dtype_str (d : dtype) : string :=
  match d with
  | int64 => "int64"
  | float64 => "float64"
  | bool_ => "bool"
  | object => "object"
  | datetime64_ns => "datetime64[ns]"
  | other_dtype name => name
  end.

Record Column : Type := {
  col_name : string;
  col_dtype : dtype
}.

Record DataFrame (Cell : Type) : Type := {
  columns : list Column;
  rows : list (list Cell)
}.
Arguments columns {Cell} _.
Arguments rows {Cell} _.

(** What the model leaves to pandas: the text of a cell value, the quoting
    of a field by the CSV writer, and the statistics table, whose numbers are
    floating-point.  [describe_csv df] is the text of
    [df.describe(include="all", datetime_is_numeric=True).to_csv()] for a
    frame [df] that has a column. *)
Class Pandas (Cell : Type) : Type := {
  cell_str : Cell -> string;
  csv_quote : string -> string;
  describe_csv : DataFrame Cell -> string
}.

Section Frames.

Context {Cell : Type} `{Pandas Cell}.

(** [df.head(n)], that is [df.iloc[:n]]: the first [n] rows, and for a
    negative [n] all rows but the last [-n]. *)
Definition head (n : Z) (df : DataFrame Cell) : DataFrame Cell :=
  let stop :=
    if (n <? 0)%Z then Z.to_nat (Z.of_nat (List.length (rows df)) + n)
    else Z.to_nat n in
  {| columns := columns df; rows := firstn stop (rows df) |}.

(** One record of the CSV writer, without its line terminator: the quoted
    fields joined by commas; a record of one empty field is written as a
    pair of quotes. *)
Definition csv_record (fields : list string) : string :=
  match fields with
  | [EmptyString] => dq ++ dq
  | _ => String.concat "," (map csv_quote fields)
  end.

Definition csv_header (df : DataFrame Cell) : string :=
  csv_record (map col_name (columns df)) ++ nl.

Definition csv_row_line (row : list Cell) : string :=
  csv_record (map cell_str row) ++ nl.

(** [df.to_csv(index=False)]: the header record, then one record per row. *)
Definition to_csv_noindex (df : DataFrame Cell) : string :=
  csv_header df ++ String.concat "" (map csv_row_line (rows df)).

(** [df.describe(include="all", datetime_is_numeric=True).to_csv()]:
    pandas refuses a frame without columns. *)
Definition describe_to_csv (df : DataFrame Cell) : result string :=
  match columns df with
  | [] => Raise (ValueError "Cannot describe a DataFrame without columns")
  | _ :: _ => Return (describe_csv df)
  end.

(** [df[col].dtype].  [df[col]] is the column that carries the label; when
    several columns carry it, [df[col]] is a frame, and a frame has no
    attribute [dtype]. *)
Definition getitem_dtype (df : DataFrame Cell) (col : string) : result dtype :=
  match filter (fun c => String.eqb (col_name c) col) (columns df) with
  | [] => Raise (OtherError "KeyError" col)
  | [c] => Return (col_dtype c)
  | _ :: _ :: _ => Raise (AttributeError "'DataFrame' object has no attribute 'dtype'")
  end.

(** [[f(x) for x in xs]], element after element. *)
Fixpoint comprehension {A B : Type} (f : A -> result B) (xs : list A)
  : result (list B) :=
  match xs with
  | [] => Return []
  | x :: xs' =>
      y <- f x ;;
      ys <- comprehension f xs' ;;
      Return (y :: ys)
  end.

(** ** Dataset summarizer *)

(** [io.StringIO]: [write] appends, [getvalue] reads the whole buffer. *)
Definition StringIO : string := "".
Definition write (buf s : string) : string := buf ++ s.
Definition getvalue (buf : string) : string := buf.

Definition summarize_dataframe (df : DataFrame Cell) (max_rows_arg : option Z)
  : result string :=
  let max_rows := match max_rows_arg with Some v => v | None => 5%Z end in
  let buf := StringIO in
  let buf := write buf ("Columns:" ++ nl) in
  listing <- comprehension
               (fun col =>
                  dtype <- getitem_dtype df col ;;
                  Return (col ++ " (" ++ dtype_str dtype ++ ")"))
               (map col_name (columns df)) ;;
  let buf := write buf (String.concat ", " listing) in
  let buf := write buf (nl ++ nl ++ "Example rows:" ++ nl) in
  let buf := write buf (to_csv_noindex (head max_rows df)) in
  let buf := write buf (nl ++ nl ++ "Basic stats (where numeric):" ++ nl) in
  stats <- describe_to_csv df ;;
  let buf := write buf stats in
  Return (getvalue buf).

Definition build_table_prompt (df : DataFrame Cell) : result string :=
  summary <- summarize_dataframe df None ;;
  Return ("
You are a creative code generator that ONLY outputs PaperScript code
for the Paper.js library (no HTML, no markdown, no explanations).

Goal:
- Turn the following tabular dataset into a human, hand-drawn-style
  grid or table visualization (Data Humanism style), similar to a calendar
  or matrix but with doodles representing the data in each cell.

Dataset summary:
----------------
" ++ summary ++ "
----------------

Visual design rules:
- Use an off-white paper-like background.
- Draw a grid or table that reflects the logical structure of the data:
  - rows = records, days, items
  - columns = features / categories
- Use wobbly sketch lines instead of perfectly straight grid lines
  (jitter the points on each line).
- For each row/column cell, draw a small doodle that reflects:
  - magnitude (size / length)
  - category (color or shape)
  - special values (e.g. missing, zero, high) with distinct marks.
- Avoid standard bar chart / pie chart style; think hand-drawn calendar
  or Dear Data postcard style.
- Include a title and a small legend using PointText and a small
  legend box in a corner.
- Canvas can be about 1100x700:
    view.viewSize = new Size(1100, 700);

PaperScript constraints:
- Assume Paper.js is already imported.
- Do not include HTML or <script> tags.
- Start directly with PaperScript code.
- Define an onFrame(event) ONLY if it helps with subtle motion (e.g. breathing).

Output:
- ONLY valid PaperScript code.
    ").

End Frames.

(** ** The scenario of the specification

    Columns [age:int, name:string], rows [(5,"a"), (6,"b"), (7,"c")]. *)

Inductive scenario_cell : Type :=
| IntCell (n : Z)
| StrCell (s : string).

(** The CSV writer's minimal quoting: a field that holds the delimiter, the
    quote character or the line terminator (a comma, a quote, a newline) is
    put between quotes, its quotes doubled. *)
Fixpoint double_quotes (s : string) : string :=
  match s with
  | EmptyString => ""
  | String c s' =>
      if Ascii.eqb c (ascii_of_nat 34) then String c (String c (double_quotes s'))
      else String c (double_quotes s')
  end.

Definition csv_quote_minimal (s : string) : string :=
  if mem_char (ascii_of_nat 44) s || mem_char (ascii_of_nat 34) s
     || mem_char (ascii_of_nat 10) s
  then dq ++ double_quotes s ++ dq
  else s.

(** The statistics tables as pandas 1.5 prints them: of the scenario frame,
    and of its two columns without a row, where the count is zero and every
    other statistic is missing. *)
Definition scenario_describe_csv : string :=
",age,name
count,3.0,3
unique,,3
top,,a
freq,,1
mean,6.0,
std,1.0,
min,5.0,
25%,5.5,
50%,6.0,
75%,6.5,
max,7.0,
".

Definition scenario_no_rows_describe_csv : string :=
",age,name
count,0.0,0
unique,,0
top,,
freq,,
mean,,
std,,
min,,
25%,,
50%,,
75%,,
max,,
".

#[export] Instance ScenarioPandas : Pandas scenario_cell := {
  cell_str := fun c => match c with IntCell n => str_of_int n | StrCell s => s end;
  csv_quote := csv_quote_minimal;
  describe_csv := fun df =>
    match rows df with
    | [] => scenario_no_rows_describe_csv
    | _ :: _ => scenario_describe_csv
    end
}.

Definition scenario_columns : list Column :=
  [ {| col_name := "age"; col_dtype := int64 |};
    {| col_name := "name"; col_dtype := object |} ].

Definition scenario_df : DataFrame scenario_cell :=
  {| columns := scenario_columns;
     rows := [ [IntCell 5; StrCell "a"];
               [IntCell 6; StrCell "b"];
               [IntCell 7; StrCell "c"] ] |}.

(** The scenario's columns without a row, and the frame without columns. *)
Definition scenario_no_rows : DataFrame scenario_cell :=
  {| columns := scenario_columns; rows := [] |}.

Definition empty_df : DataFrame scenario_cell :=
  {| columns := []; rows := [] |}.

(** ** The fixed text of the templates

    The text around the holes of each template, read off the function
    itself: the function is run with the character NUL, which no template
    holds, in every hole, and its result is cut at that character. *)

Definition NUL : string := String zero EmptyString.

Fixpoint cut_at (c : ascii) (s : string) : string * list string :=
  match s with
  | EmptyString => ("", [])
  | String y s' =>
      let (piece, others) := cut_at c s' in
      if Ascii.eqb c y then ("", piece :: others) else (String y piece, others)
  end.

Definition pieces (s : string) : list string :=
  let (piece, others) := cut_at zero s in piece :: others.

Definition piece (n : nat) (ps : list string) : string := nth n ps "".

Definition html_pieces : list string :=
  Eval vm_compute in pieces (build_paper_html NUL (Some NUL)).

Definition journal_pieces : list string :=
  Eval vm_compute in pieces (build_journal_prompt NUL NUL).

(** The text around the summary in the table prompt: the prompt of the
    scenario frame, cut around its summary. *)
Fixpoint drop (n : nat) (s : string) : string :=
  match n, s with
  | S n', String _ s' => drop n' s'
  | _, _ => s
  end.

Fixpoint around (inner whole : string) : option (string * string) :=
  if prefixb inner whole then Some ("", drop (String.length inner) whole)
  else
    match whole with
    | EmptyString => None
    | String c whole' =>
        match around inner whole' with
        | Some (before, after) => Some (String c before, after)
        | None => None
        end
    end.

Definition table_pieces : list string :=
  Eval vm_compute in
    match summarize_dataframe scenario_df None, build_table_prompt scenario_df with
    | Return summary, Return prompt =>
        match around summary prompt with
        | Some (before, after) => [before; after]
        | None => []
        end
    | _, _ => []
    end.

Definition html_0 : string := piece 0 html_pieces.
Definition html_1 : string := piece 1 html_pieces.
Definition html_2 : string := piece 2 html_pieces.
Definition html_3 : string := piece 3 html_pieces.
Definition journal_0 : string := piece 0 journal_pieces.
Definition journal_1 : string := piece 1 journal_pieces.
Definition journal_2 : string := piece 2 journal_pieces.
Definition table_0 : string := piece 0 table_pieces.
Definition table_1 : string := piece 1 table_pieces.

(** ** The texts the properties speak of *)

(** The canvas element the wrapper declares, and its opening up to the
    identifier. *)
Definition canvas_open_tag (canvas_id : string) : string :=
  "<canvas id=" ++ dq ++ canvas_id ++ dq.

Definition canvas_element (canvas_id : string) : string :=
  canvas_open_tag canvas_id ++ " resize></canvas>".

(** The opening tag of the PaperScript block, bound to a canvas. *)
Definition paperscript_open_tag (canvas_id : string) : string :=
  "<script type=" ++ dq ++ "text/paperscript" ++ dq ++ " canvas=" ++ dq ++ canvas_id
  ++ dq ++ ">".

(** The quotation block of the journal prompt. *)
Definition triple_quote : string := dq ++ dq ++ dq.

Definition quotation_block (user_text : string) : string :=
  "Story context:" ++ nl ++ triple_quote ++ user_text ++ triple_quote ++ nl.

(** The column listing of the summary: [name (dtype)], comma separated. *)
Definition column_listing {Cell : Type} (df : DataFrame Cell) : string :=
  String.concat ", "
    (map (fun col => col_name col ++ " (" ++ dtype_str (col_dtype col) ++ ")") (columns df)).

(** The entry of a label in the listing, as the summarizer computes it,
    and the labels of a frame. *)
Definition listing_entry {Cell : Type} (df : DataFrame Cell) (col : string)
  : result string :=
  dtype <- getitem_dtype df col ;;
  Return (col ++ " (" ++ dtype_str dtype ++ ")").

Definition labels {Cell : Type} (df : DataFrame Cell) : list string :=
  map col_name (columns df).

Definition no_dtype : exn :=
  AttributeError "'DataFrame' object has no attribute 'dtype'".

(** The headings the summarizer writes before the sample rows and before
    the statistics. *)
Definition rows_heading : string := nl ++ nl ++ "Example rows:" ++ nl.
Definition stats_heading : string := nl ++ nl ++ "Basic stats (where numeric):" ++ nl.

(** The delimiter line of the table prompt. *)
Definition dashes : string := "----------------".

(** The request [generate_paperscript] sends. *)
Definition request (prompt : string) : Call :=
  {| call_model := {| model_name := "gemini-1.5-pro" |};
     call_prompt := prompt;
     call_config := {| temperature := QArith_base.Qmake 9 10 |} |}.

(** The first [String.length s - n] characters of [s]. *)
Definition drop_last (n : nat) (s : string) : string :=
  substring 0 (String.length s - n) s.

(** Inputs of the examples. *)
Definition no_environ : Environ := fun _ => None.

Definition keyed_environ : Environ :=
  fun key => if String.eqb key "GEMINI_API_KEY" then Some "k" else None.

Definition sea_text : string := "I swam across the sea at night".

(** A response without [text], and one whose [text] property raises
    [ValueError], as the SDK's does when the reply holds no text part. *)
Definition bare_response : Response :=
  {| text := AttrRaises (AttributeError "text"); str := "response" |}.

Definition blocked_response : Response :=
  {| text := AttrRaises (ValueError "no valid Part"); str := "response" |}.

(** A script that closes the PaperScript block and declares a canvas of its
    own. *)
Definition injected_script : string :=
  "</script>" ++ canvas_element "c" ++ "<script>".

Definition scenario_summary : string :=
  Eval vm_compute in
    match summarize_dataframe scenario_df (Some 5%Z) with
    | Return s => s
    | Raise _ => ""
    end.

(** ** The Streamlit script

    The rest of the module is the script Streamlit runs from top to bottom
    at every interaction.  A run starts with an empty page; each [st.] call
    adds an element to it, and a widget call also returns the value the user
    gave the widget.  An exception that nothing catches ends the run. *)

(** [s.lower().endswith(suffix)] and [s.strip()], on the UTF-8 bytes.
    [lower] lowers the letters A to Z: no other character becomes a dot or
    one of the letters c, s, v when lowered, so this decides the test of the
    suffix [.csv], the one use the script makes of [lower]. *)
Definition lower_char (c : ascii) : ascii :=
  let n := nat_of_ascii c in
  if Nat.leb 65 n && Nat.leb n 90 then ascii_of_nat (n + 32) else c.

Fixpoint lower (s : string) : string :=
  match s with
  | EmptyString => ""
  | String c s' => String (lower_char c) (lower s')
  end.

Fixpoint endswith (s suffix : string) : bool :=
  if String.eqb s suffix then true
  else
    match s with
    | EmptyString => false
    | String _ s' => endswith s' suffix
    end.

(** The whitespace of [str.strip]: U+0009 to U+000D, U+001C to U+0020,
    U+0085, U+00A0, U+1680, U+2000 to U+200A, U+2028, U+2029, U+202F, U+205F
    and U+3000, by the bytes of their encodings. *)
Definition space1 (a : ascii) : bool :=
  let a := nat_of_ascii a in
  (Nat.leb 9 a && Nat.leb a 13) || (Nat.leb 28 a && Nat.leb a 32).

Definition space2 (a b : ascii) : bool :=
  let a := nat_of_ascii a in
  let b := nat_of_ascii b in
  Nat.eqb a 194 && (Nat.eqb b 133 || Nat.eqb b 160).

Definition space3 (a b c : ascii) : bool :=
  let a := nat_of_ascii a in
  let b := nat_of_ascii b in
  let c := nat_of_ascii c in
  (Nat.eqb a 225 && Nat.eqb b 154 && Nat.eqb c 128)
  || (Nat.eqb a 226 && Nat.eqb b 128
      && ((Nat.leb 128 c && Nat.leb c 138) || Nat.eqb c 168 || Nat.eqb c 169 || Nat.eqb c 175))
  || (Nat.eqb a 226 && Nat.eqb b 129 && Nat.eqb c 159)
  || (Nat.eqb a 227 && Nat.eqb b 128 && Nat.eqb c 128).

(** [strip_front forwards s] drops the leading whitespace of [s]; with
    [forwards = false] the string is read from its end, so that the bytes of
    a character come last byte first. *)
Fixpoint strip_front (forwards : bool) (s : string) : string :=
  match s with
  | EmptyString => ""
  | String a s1 =>
      if space1 a then strip_front forwards s1
      else
        match s1 with
        | EmptyString => s
        | String b s2 =>
            if (if forwards then space2 a b else space2 b a) then strip_front forwards s2
            else
              match s2 with
              | EmptyString => s
              | String c s3 =>
                  if (if forwards then space3 a b c else space3 c b a)
                  then strip_front forwards s3
                  else s
              end
        end
  end.

Fixpoint reverse_onto (s acc : string) : string :=
  match s with
  | EmptyString => acc
  | String c s' => reverse_onto s' (String c acc)
  end.

Definition reverse (s : string) : string := reverse_onto s "".

Definition strip (s : string) : string :=
  reverse (strip_front false (reverse (strip_front true s))).

(** [str(e)]: the message of the exception. *)
Definition exn_str (e : exn) : string :=
  match e with
  | AttributeError msg => msg
  | ValueError msg => msg
  | OtherError _ msg => msg
  end.

(** What [st.file_uploader] returns for a file. *)
Record UploadedFile : Type := {
  name : string;
  data : string
}.

(** What the widgets return in a run: the choices and entries of the user,
    and for each button whether this run follows a click on it. *)
Record Widgets : Type := {
  mode : string;
  context_type : string;
  user_text : string;
  generate_visual : bool;
  uploaded : option UploadedFile;
  generate_grid : bool
}.

(** The calls of Streamlit, as elements of the page. *)
Inductive element (Cell : Type) : Type :=
| st_set_page_config (page_title layout : string)
| st_title (body : string)
| st_caption (body : string)
| st_sidebar_radio (label : string) (options : list string)
| st_sidebar_warning (body : string)
| st_empty
| st_subheader (body : string)
| st_selectbox (label : string) (options : list string) (index : Z)
| st_text_area (label : string) (height : Z) (placeholder : string)
| st_button (label type : string)
| st_error (body : string)
| st_spinner (text : string)
| st_expander (label : string)
| st_code (body language : string)
| components_html (html : string) (height : Z) (scrolling : bool)
| st_file_uploader (label : string) (type : list string)
| st_write (body : string)
| st_dataframe (df : DataFrame Cell)
| st_info (body : string)
| st_markdown (body : string).
Arguments st_set_page_config {Cell}.
Arguments st_title {Cell}.
Arguments st_caption {Cell}.
Arguments st_sidebar_radio {Cell}.
Arguments st_sidebar_warning {Cell}.
Arguments st_empty {Cell}.
Arguments st_subheader {Cell}.
Arguments st_selectbox {Cell}.
Arguments st_text_area {Cell}.
Arguments st_button {Cell}.
Arguments st_error {Cell}.
Arguments st_spinner {Cell}.
Arguments st_expander {Cell}.
Arguments st_code {Cell}.
Arguments components_html {Cell}.
Arguments st_file_uploader {Cell}.
Arguments st_write {Cell}.
Arguments st_dataframe {Cell}.
Arguments st_info {Cell}.
Arguments st_markdown {Cell}.

(** The state a run works on: the page, the log of the remote calls, and
    the key given to [genai.configure]. *)
Record World (Cell : Type) : Type := {
  page : list (element Cell);
  calls : list Call;
  api_key : option string
}.
Arguments page {Cell} _.
Arguments calls {Cell} _.
Arguments api_key {Cell} _.

Definition App (Cell A : Type) : Type := World Cell -> result A * World Cell.

Definition ret_app {Cell A : Type} (a : A) : App Cell A := fun w => (Return a, w).

Definition bind_app {Cell A B : Type} (m : App Cell A) (k : A -> App Cell B)
  : App Cell B :=
  fun w =>
    match m w with
    | (Return a, w') => k a w'
    | (Raise e, w') => (Raise e, w')
    end.

Notation "x <-- c1 ;; c2" := (bind_app c1 (fun x => c2))
  (at level 61, c1 at next level, right associativity).
Notation "c1 >> c2" := (bind_app c1 (fun _ => c2))
  (at level 61, right associativity).

Definition emit {Cell : Type} (e : element Cell) : App Cell unit :=
  fun w =>
    (Return tt, {| page := (page w ++ [e])%list; calls := calls w; api_key := api_key w |}).

(** [genai.configure(api_key=key)] *)
Definition configure {Cell : Type} (key : string) : App Cell unit :=
  fun w => (Return tt, {| page := page w; calls := calls w; api_key := Some key |}).

(** A computation of the generation client, run on the log of the world. *)
Definition call {Cell A : Type} (m : M A) : App Cell A :=
  fun w =>
    let (r, log) := m (calls w) in
    (r, {| page := page w; calls := log; api_key := api_key w |}).

Definition of_result {Cell A : Type} (r : result A) : App Cell A := fun w => (r, w).

(** [try: body  except Exception as e: handler(e)]: every exception of the
    model is an [Exception]. *)
Definition try_except_Exception {Cell A : Type} (body : result A)
  (handler : exn -> App Cell A) : App Cell A :=
  match body with
  | Return a => ret_app a
  | Raise e => handler e
  end.

(** The kinds of entry the selectbox offers. *)
Definition context_types : list string :=
  ["dream"; "memory"; "routine / day"; "random thought"].

Section Script.

Context {Cell : Type} `{Pandas Cell}.

(** [pd.read_csv] and [pd.read_excel], of pandas. *)
Variables read_csv read_excel : UploadedFile -> result (DataFrame Cell).

Variable environ : Environ.
Variable remote : Remote.
Variable widgets : Widgets.

(** The subheader, the code under its expander, and the document. *)
Definition show_visual (paperscript : string) : App Cell unit :=
  emit (st_subheader "Generated PaperScript (for debugging / curiosity)") >>
  emit (st_expander "Show code") >>
  emit (st_code paperscript "javascript") >>
  let html := build_paper_html paperscript None in
  emit (components_html html 720 false).

(** The branch [mode == "Journal / Dream Text"]. *)
Definition journal_mode : App Cell unit :=
  emit (st_subheader "Journal / Dream Input") >>
  emit (st_selectbox "What kind of entry is this?" context_types 0) >>
  let context_type := context_type widgets in
  emit (st_text_area "Write your entry here:" 200
          "Example: I was swimming across the seas all over the globe with Gomma at night...") >>
  let user_text := user_text widgets in
  emit (st_button "Generate Visual" "primary") >>
  if generate_visual widgets then
    if negb (truthy (strip user_text)) then
      emit (st_error "Please write something first.")
    else
      emit (st_spinner "Asking the doodle engine...") >>
      let prompt := build_journal_prompt user_text context_type in
      paperscript <-- call (generate_paperscript environ remote prompt) ;;
      show_visual paperscript
  else ret_app tt.

(** The other branch. *)
Definition table_mode : App Cell unit :=
  emit (st_subheader "Spreadsheet / Tabular Data Input") >>
  emit (st_file_uploader "Upload a CSV or Excel file" ["csv"; "xlsx"; "xls"]) >>
  match uploaded widgets with
  | Some uploaded =>
      (* Try to read into DataFrame *)
      df <-- try_except_Exception
               (df <- (if endswith (lower (name uploaded)) ".csv"
                       then read_csv uploaded
                       else read_excel uploaded) ;;
                Return (Some df))
               (fun e =>
                  emit (st_error ("Error reading file: " ++ exn_str e)) >>
                  ret_app None) ;;
      match df with
      | Some df =>
          emit (st_write "Preview of your data:") >>
          emit (st_dataframe (head 5 df)) >>
          emit (st_button "Generate Grid Visual" "primary") >>
          if generate_grid widgets then
            emit (st_spinner "Translating your table into a humanistic grid...") >>
            prompt <-- of_result (build_table_prompt df) ;;
            paperscript <-- call (generate_paperscript environ remote prompt) ;;
            show_visual paperscript
          else ret_app tt
      | None => ret_app tt
      end
  | None => emit (st_info "Upload a CSV or Excel file to begin.")
  end.

Definition script : App Cell unit :=
  (* load_dotenv() has filled the environment *)
  let GEMINI_API_KEY := GEMINI_API_KEY environ in
  (if truthy GEMINI_API_KEY then configure GEMINI_API_KEY else ret_app tt) >>
  emit (st_set_page_config "Virtual Journal ¬∑ Data Humanism" "wide") >>
  emit (st_title "üìù Virtual Journal ¬∑ Data Humanism Visualiser") >>
  emit (st_caption "Write a dream or upload data ‚Äî see a hand-drawn, living visual in Paper.js") >>
  emit (st_sidebar_radio "Choose mode" ["Journal / Dream Text"; "Spreadsheet / Tabular Data"]) >>
  let mode := mode widgets in
  (if negb (truthy GEMINI_API_KEY) then emit (st_sidebar_warning "No GEMINI_API_KEY found ‚Äì using fallback static demo.")
   else ret_app tt) >>
  (* Shared container for visualization *)
  emit st_empty >>
  (if String.eqb mode "Journal / Dream Text" then journal_mode else table_mode) >>
  emit (st_markdown ("
---

_This version is ephemeral: nothing is stored.  
Each visual is a momentary mirror of your text or data._
")).

(** A run of the script, after the remote calls of [log]. *)
Definition run (log : list Call) : result unit * World Cell :=
  script {| page := []; calls := log; api_key := None |}.

End Script.

(** The reader the script runs on an uploaded file. *)
Definition reader {Cell : Type}
  (read_csv read_excel : UploadedFile -> result (DataFrame Cell))
  (uploaded : UploadedFile) : result (DataFrame Cell) :=
  if endswith (lower (name uploaded)) ".csv" then read_csv uploaded
  else read_excel uploaded.

(** What a page shows: the documents, the errors, the warnings of the
    sidebar. *)
Fixpoint documents {Cell : Type} (p : list (element Cell)) : list string :=
  match p with
  | [] => []
  | components_html html _ _ :: p' => html :: documents p'
  | _ :: p' => documents p'
  end.

Fixpoint errors {Cell : Type} (p : list (element Cell)) : list string :=
  match p with
  | [] => []
  | st_error body :: p' => body :: errors p'
  | _ :: p' => errors p'
  end.

Fixpoint warnings {Cell : Type} (p : list (element Cell)) : list string :=
  match p with
  | [] => []
  | st_sidebar_warning body :: p' => body :: warnings p'
  | _ :: p' => warnings p'
  end.

(** Inputs of the examples. *)
Definition journal_widgets (text : string) (clicked : bool) : Widgets :=
  {| mode := "Journal / Dream Text"; context_type := "dream"; user_text := text;
     generate_visual := clicked; uploaded := None; generate_grid := false |}.

Definition table_widgets (file_name : string) (clicked : bool) : Widgets :=
  {| mode := "Spreadsheet / Tabular Data"; context_type := "dream"; user_text := "";
     generate_visual := false;
     uploaded := Some {| name := file_name; data := "" |};
     generate_grid := clicked |}.

Definition scenario_reader : UploadedFile -> result (DataFrame scenario_cell) :=
  fun _ => Return scenario_df.

Definition empty_reader : UploadedFile -> result (DataFrame scenario_cell) :=
  fun _ => Return empty_df.

Definition failing_reader : UploadedFile -> result (DataFrame scenario_cell) :=
  fun _ => Raise (ValueError "No columns to parse from file").

Definition plain_response : Response :=
  {| text := Attr "var c = new Path.Circle(view.center, 40);"; str := "response" |}.

Definition plain_remote : Remote := fun _ => Return plain_response.

(** ** The journal prompt as Python evaluates it

    The body of [build_journal_prompt] returns an f-string: literal texts
    and replacement fields, each field a name.  Python looks a name up in
    the local namespace of the call, which holds the parameters, then in
    the globals of the module; the string found is formatted as it is. *)
Inductive fstring_part : Type :=
| Literal (text : string)
| Field (name : string).

Definition Namespace : Type := string -> option string.

Definition load_name (locals globals : Namespace) (name : string) : result string :=
  match locals name with
  | Some value => Return value
  | None =>
      match globals name with
      | Some value => Return value
      | None => Raise (OtherError "NameError" name)
      end
  end.

Fixpoint format_fstring (locals globals : Namespace) (parts : list fstring_part)
  : result string :=
  match parts with
  | [] => Return ""
  | Literal text :: rest =>
      tail <- format_fstring locals globals rest ;;
      Return (text ++ tail)
  | Field name :: rest =>
      value <- load_name locals globals name ;;
      tail <- format_fstring locals globals rest ;;
      Return (value ++ tail)
  end.

(** The f-string of [build_journal_prompt], lines 98 to 138. *)
Definition build_journal_prompt_fstring : list fstring_part :=
  [ Literal "
You are a creative code generator that ONLY outputs PaperScript code
for the Paper.js library (no HTML, no markdown, no explanations).

Goal:
- Turn the following ";
    Field "context_type";
    Literal (" journal text into a hand-drawn-style,
  animated visualization, in the spirit of Giorgia Lupi / Data Humanism.

Requirements:
- Use an off-white paper-like background or a context-appropriate background
  (for example, deep night blue for night oceans).
- Use wobbly, imperfect lines and circles by jittering points, as if drawn by hand.
- Use soft, semi-transparent colors with an ink/watercolor vibe.
- Add gentle, meaningful motion via onFrame(event):
  - calm scenes: slow floating or breathing motion
  - intense scenes: more pronounced, but still organic motion

Story context:
" ++ dq ++ dq ++ dq);
    Field "user_text";
    Literal (dq ++ dq ++ dq ++ "


Visual design rules:
- Do NOT draw a calendar grid here unless the text clearly describes schedule-like data.
- Instead, choose a metaphor that fits the story:
  - If the story is about a dream of swimming across seas at night, use curves of the earth,
    waves, stars, and two swimmers.
  - If it is about a warm memory at a caf√©, use circular tables, warm light halos, etc.
- Place any textual annotations as PointText in a subtle way (small caption or title).
- The drawing must fill a reasonably large canvas, for example about 1000x650.
  You can set it using:
    view.viewSize = new Size(1000, 650);

PaperScript constraints:
- Assume Paper.js is already imported.
- Do not include HTML or <script> tags.
- Start directly with PaperScript (JavaScript-like) code.
- Define an onFrame(event) handler if you want animation.

Output:
- ONLY valid PaperScript code.
    ") ].

(** The parameters, bound to the arguments of a call. *)
Definition build_journal_prompt_locals (user_text context_type : string) : Namespace :=
  fun name =>
    if String.eqb name "user_text" then Some user_text
    else if String.eqb name "context_type" then Some context_type
    else None.

(** A call of [build_journal_prompt] in a module whose globals are
    [globals]. *)
Definition call_build_journal_prompt (globals : Namespace)
  (user_text context_type : string) : result string :=
  format_fstring (build_journal_prompt_locals user_text context_type) globals
    build_journal_prompt_fstring.

(** Two states of the module: nothing defined, and globals that hold a
    credential and a name spelled like a parameter. *)
Definition no_globals : Namespace := fun _ => None.

Definition busy_globals : Namespace :=
  fun name =>
    if String.eqb name "GEMINI_API_KEY" then Some "k"
    else if String.eqb name "user_text" then Some "a global of that name"
    else None.

(** ** Markup

    A tag opens with [<] and closes with [>].  The prompts tell the model to
    write no HTML in one sentence that names the script tag. *)
Definition tag_free (s : string) : bool :=
  Nat.eqb (count_char "<" s) 0 && Nat.eqb (count_char ">" s) 0.

Definition tag_instruction : string := "- Do not include HTML or <script> tags.".

(** The fixed text after the last hole of each prompt, before and after
    that sentence. *)
Definition journal_2_parts : list string :=
  Eval vm_compute in
    match around tag_instruction journal_2 with
    | Some (before, after) => [before; after]
    | None => []
    end.

Definition table_1_parts : list string :=
  Eval vm_compute in
    match around tag_instruction table_1 with
    | Some (before, after) => [before; after]
    | None => []
    end.

Definition journal_2_before : string := piece 0 journal_2_parts.
Definition journal_2_after : string := piece 1 journal_2_parts.
Definition table_1_before : string := piece 0 table_1_parts.
Definition table_1_after : string := piece 1 table_1_parts.

(** * Properties *)

(** ** Strings *)

Section StringFacts.

Lemma append_assoc (a b c : string) : (a ++ b) ++ c = a ++ (b ++ c).
Proof.
  induction a as [|x a IH]; simpl; [reflexivity | now rewrite IH].
Qed.

Lemma append_nil_r (a : string) : a ++ "" = a.
Proof.
  induction a as [|x a IH]; simpl; [reflexivity | now rewrite IH].
Qed.

Lemma is_substring_intro (pre sub post s : string) :
  s = pre ++ sub ++ post -> is_substring sub s.
Proof.
  intros ->. now exists pre, post.
Qed.

(** A pattern cannot run across a character it does not hold. *)
Lemma prefixb_app_sep (p a b : string) (c : ascii) :
  mem_char c p = false ->
  prefixb p (a ++ String c b) = prefixb p a.
Proof.
  revert a. induction p as [|x p IH]; intros a Hc; [reflexivity|].
  simpl in Hc. apply orb_false_elim in Hc as [Hx Hp].
  destruct a as [|y a]; simpl.
  - rewrite Ascii.eqb_sym, Hx. reflexivity.
  - rewrite (IH a Hp). reflexivity.
Qed.

Lemma prefixb_sep_head (p b : string) (c : ascii) :
  p <> "" -> mem_char c p = false -> prefixb p (String c b) = false.
Proof.
  destruct p as [|x p]; [congruence|]. intros _ Hc.
  simpl in *. apply orb_false_elim in Hc as [Hx _].
  rewrite Ascii.eqb_sym, Hx. reflexivity.
Qed.

Lemma prefixb_nil (p : string) : p <> "" -> prefixb p "" = false.
Proof.
  destruct p; [congruence | reflexivity].
Qed.

Lemma count_sub_sep_head (p b : string) (c : ascii) :
  p <> "" -> mem_char c p = false ->
  count_sub p (String c b) = count_sub p b.
Proof.
  intros Hp Hc. cbn [count_sub]. now rewrite (prefixb_sep_head p b c Hp Hc).
Qed.

Lemma count_sub_app_sep (p a b : string) (c : ascii) :
  p <> "" -> mem_char c p = false ->
  count_sub p (a ++ String c b) = count_sub p a + count_sub p b.
Proof.
  intros Hp Hc. induction a as [|y a IH].
  - cbn [append]. rewrite (count_sub_sep_head p b c Hp Hc).
    cbn [count_sub]. now rewrite (prefixb_nil p Hp).
  - change ((String y a) ++ String c b) with (String y (a ++ String c b)).
    cbn [count_sub]. rewrite IH.
    change (String y (a ++ String c b)) with ((String y a) ++ String c b).
    rewrite (prefixb_app_sep p (String y a) b c Hc). lia.
Qed.

Lemma last_char_split (a : string) (c : ascii) :
  last_char a = Some c -> exists a', a = a' ++ String c "".
Proof.
  induction a as [|y a IH]; [discriminate|].
  cbn [last_char]. destruct a as [|z a].
  - intros [= ->]. now exists "".
  - intros Hl. destruct (IH Hl) as [a' Ha']. exists (String y a').
    cbn [append]. now rewrite <- Ha'.
Qed.

(** Occurrences add up over a concatenation whose left part ends with, or
    whose right part starts with, a character the pattern does not hold. *)
Lemma count_sub_app_l (p a b : string) (c : ascii) :
  p <> "" -> last_char a = Some c -> mem_char c p = false ->
  count_sub p (a ++ b) = count_sub p a + count_sub p b.
Proof.
  intros Hp Hl Hc. destruct (last_char_split a c Hl) as [a' ->].
  rewrite append_assoc. cbn [append].
  rewrite !(count_sub_app_sep p a' _ c Hp Hc).
  cbn [count_sub]. rewrite (prefixb_nil p Hp). lia.
Qed.

Lemma count_sub_app_r (p a b : string) (c : ascii) :
  p <> "" -> first_char b = Some c -> mem_char c p = false ->
  count_sub p (a ++ b) = count_sub p a + count_sub p b.
Proof.
  intros Hp Hf Hc. destruct b as [|y b]; [discriminate|].
  injection Hf as ->.
  rewrite (count_sub_app_sep p a b c Hp Hc).
  now rewrite (count_sub_sep_head p b c Hp Hc).
Qed.

Lemma first_char_app (a b : string) (c : ascii) :
  first_char a = Some c -> first_char (a ++ b) = Some c.
Proof.
  destruct a; [discriminate | trivial].
Qed.

End StringFacts.

(** ** The templates, hole by hole *)

Section Templates.

Lemma build_paper_html_pieces (paperscript_code canvas_id : string) :
  build_paper_html paperscript_code (Some canvas_id) =
  html_0 ++ canvas_id ++ html_1 ++ canvas_id ++ html_2 ++ paperscript_code ++ html_3.
Proof. reflexivity. Qed.

Lemma build_journal_prompt_pieces (user_text context_type : string) :
  build_journal_prompt user_text context_type =
  journal_0 ++ context_type ++ journal_1 ++ user_text ++ journal_2.
Proof. reflexivity. Qed.

Lemma build_table_prompt_pieces {Cell : Type} `{Pandas Cell} (df : DataFrame Cell) :
  build_table_prompt df =
  (summary <- summarize_dataframe df None ;; Return (table_0 ++ summary ++ table_1)).
Proof. reflexivity. Qed.

End Templates.

(** ** Generation client *)

Section GenerationClient.

(** C1.  Without a credential (the variable GEMINI_API_KEY unset or empty)
    [generate_paperscript] returns the constant
    [DEFAULT_FALLBACK_PAPERSCRIPT] for every prompt and every remote
    service, and the log of remote calls is left as it was: no call is
    attempted. *)
Theorem generate_paperscript_no_credential
  (environ : Environ) (remote : Remote) (prompt : string) (log : list Call) :
  GEMINI_API_KEY environ = "" ->
  generate_paperscript environ remote prompt log
  = (Return DEFAULT_FALLBACK_PAPERSCRIPT, log).
Proof.
  intros Hkey. unfold generate_paperscript.
  rewrite Hkey. reflexivity.
Qed.

Lemma generate_paperscript_no_credential_witness :
  GEMINI_API_KEY no_environ = "" /\
  generate_paperscript no_environ (fun _ => Return blocked_response) sea_text []
  = (Return DEFAULT_FALLBACK_PAPERSCRIPT, []).
Proof.
  split; [reflexivity|].
  apply (generate_paperscript_no_credential no_environ). reflexivity.
Defined.

Lemma generate_paperscript_keyed (environ : Environ) (remote : Remote)
  (prompt : string) (log : list Call) :
  truthy (GEMINI_API_KEY environ) = true ->
  generate_paperscript environ remote prompt log
  = (match remote (request prompt) with
     | Return response =>
         try_except_AttributeError (getattr_text response) (Return (str response))
     | Raise e => Raise e
     end,
     (log ++ [request prompt])%list).
Proof.
  intros Hkey. unfold generate_paperscript, bind, generate_content, lift.
  rewrite Hkey. cbn [negb]. fold (request prompt).
  destruct (remote (request prompt)); reflexivity.
Qed.

(** C5, as the code has it.  With a credential the client makes one remote
    call.  What the call raises goes to the caller.  When the call returns a
    response: a [text] that reads as a string is returned; a [text] whose read
    raises [AttributeError] is replaced by [str(response)]; any other
    exception raised by the read of [text] goes to the caller. *)
Theorem generate_paperscript_response_shapes
  (environ : Environ) (remote : Remote) (prompt : string) (log : list Call) :
  truthy (GEMINI_API_KEY environ) = true ->
  let out := generate_paperscript environ remote prompt log in
  snd out = (log ++ [request prompt])%list /\
  (forall e, remote (request prompt) = Raise e -> fst out = Raise e) /\
  (forall response, remote (request prompt) = Return response ->
     (forall s, text response = Attr s -> fst out = Return s) /\
     (forall msg, text response = AttrRaises (AttributeError msg) ->
                  fst out = Return (str response)) /\
     (forall e, text response = AttrRaises e -> is_AttributeError e = false ->
                fst out = Raise e)).
Proof.
  intros Hkey out. subst out.
  rewrite (generate_paperscript_keyed environ remote prompt log Hkey).
  cbn [fst snd]. split; [reflexivity|]. split.
  - intros e ->. reflexivity.
  - intros response ->. unfold getattr_text. repeat split.
    + intros s ->. reflexivity.
    + intros msg ->. reflexivity.
    + intros e -> He. cbn. now rewrite He.
Qed.

Lemma generate_paperscript_response_shapes_witness :
  truthy (GEMINI_API_KEY keyed_environ) = true /\
  fst (generate_paperscript keyed_environ (fun _ => Return bare_response) sea_text [])
  = Return "response".
Proof.
  split; [reflexivity|].
  pose proof (generate_paperscript_response_shapes keyed_environ
                (fun _ => Return bare_response) sea_text [] eq_refl) as Hshapes.
  cbv zeta in Hshapes. destruct Hshapes as (_ & _ & Hret).
  destruct (Hret bare_response eq_refl) as (_ & Hattr & _).
  exact (Hattr "text" eq_refl).
Defined.

(** C5, as the specification words it, fails.  The call returns a response
    whose [text] property raises [ValueError]: [except AttributeError] does
    not catch it, and [generate_paperscript] raises. *)
Lemma generate_paperscript_text_raises :
  (fun _ => Return blocked_response) (request sea_text) = Return blocked_response /\
  fst (generate_paperscript keyed_environ (fun _ => Return blocked_response) sea_text [])
  = Raise (ValueError "no valid Part").
Proof.
  split; reflexivity.
Qed.

End GenerationClient.

(** ** Scene wrapper *)

Section SceneWrapper.

Local Ltac add_l c :=
  rewrite (count_sub_app_l _ _ _ c);
  [ | discriminate | vm_compute; reflexivity | reflexivity ].

Local Ltac add_r c :=
  rewrite (count_sub_app_r _ _ _ c);
  [ | discriminate
    | first [ apply first_char_app; vm_compute; reflexivity | vm_compute; reflexivity ]
    | reflexivity ].

Lemma html_fixed_canvas :
  count_sub "<canvas" html_0 = 1 /\ count_sub "<canvas" html_1 = 0 /\
  count_sub "<canvas" html_2 = 0 /\ count_sub "<canvas" html_3 = 0.
Proof.
  repeat split; vm_compute; reflexivity.
Qed.

Lemma build_paper_html_count_canvas (paperscript_code canvas_id : string) :
  count_sub "<canvas" (build_paper_html paperscript_code (Some canvas_id))
  = 1 + count_sub "<canvas" paperscript_code + 2 * count_sub "<canvas" canvas_id.
Proof.
  rewrite build_paper_html_pieces.
  pose (quote := ascii_of_nat 34). pose (newline := ascii_of_nat 10).
  add_l quote. add_r quote. add_l quote. add_r quote. add_l newline. add_r newline.
  destruct html_fixed_canvas as (-> & -> & -> & ->). lia.
Qed.

Lemma build_paper_html_holds_script (paperscript_code canvas_id : string) :
  is_substring paperscript_code (build_paper_html paperscript_code (Some canvas_id)).
Proof.
  apply (is_substring_intro (html_0 ++ canvas_id ++ html_1 ++ canvas_id ++ html_2)
           _ html_3).
  rewrite build_paper_html_pieces, !append_assoc. reflexivity.
Qed.

Lemma build_paper_html_layout (paperscript_code canvas_id : string) :
  build_paper_html paperscript_code (Some canvas_id)
  = drop_last 12 html_0 ++ canvas_element canvas_id
    ++ (nl ++ "    </div>" ++ nl ++ "    ")
    ++ paperscript_open_tag canvas_id ++ nl ++ paperscript_code ++ html_3.
Proof.
  rewrite build_paper_html_pieces.
  unfold canvas_element, canvas_open_tag, paperscript_open_tag.
  rewrite !append_assoc. reflexivity.
Qed.

(** C2, as the code has it.  The output holds the script as it is, as one
    run of characters, and the canvas element that carries the identifier.
    The openings of canvas elements in the output are that one, those of the
    script, and those of the identifier, which the template writes twice: a
    single canvas element whenever the script and the identifier bring
    none. *)
Theorem build_paper_html_script_and_canvas (paperscript_code canvas_id : string) :
  let html := build_paper_html paperscript_code (Some canvas_id) in
  is_substring paperscript_code html /\
  is_substring (canvas_element canvas_id) html /\
  count_sub "<canvas" html
  = 1 + count_sub "<canvas" paperscript_code + 2 * count_sub "<canvas" canvas_id.
Proof.
  cbv zeta. split; [apply build_paper_html_holds_script|]. split.
  - eapply is_substring_intro. apply build_paper_html_layout.
  - apply build_paper_html_count_canvas.
Qed.

(** C2, as the specification words it, fails: a script that closes the
    PaperScript block and declares a canvas with the same identifier gives a
    document with two canvas elements of that identifier. *)
Lemma build_paper_html_two_canvases :
  count_sub (canvas_open_tag "c") (build_paper_html injected_script (Some "c")) = 2.
Proof.
  vm_compute. reflexivity.
Qed.

(** C9.  The identifier is written at two places of the document, the [id]
    of the canvas element and the [canvas] of the PaperScript block that
    follows it, around a text that depends on neither argument; a call
    without identifier uses [dreamCanvas]. *)
Theorem build_paper_html_binds_canvas :
  (exists pre mid post, forall paperscript_code canvas_id,
      build_paper_html paperscript_code (Some canvas_id)
      = pre ++ canvas_element canvas_id ++ mid
        ++ paperscript_open_tag canvas_id ++ nl ++ paperscript_code ++ post) /\
  (forall paperscript_code,
      build_paper_html paperscript_code None
      = build_paper_html paperscript_code (Some "dreamCanvas")).
Proof.
  split.
  - exists (drop_last 12 html_0), (nl ++ "    </div>" ++ nl ++ "    "), html_3.
    intros paperscript_code canvas_id. apply build_paper_html_layout.
  - intros paperscript_code. reflexivity.
Qed.

End SceneWrapper.

(** ** Prompt builder: journal entries *)

Section JournalPrompt.

Lemma build_journal_prompt_layout (user_text context_type : string) :
  build_journal_prompt user_text context_type
  = (journal_0 ++ context_type ++ drop_last 18 journal_1)
    ++ quotation_block user_text ++ drop 4 journal_2.
Proof.
  rewrite build_journal_prompt_pieces. unfold quotation_block, triple_quote.
  rewrite !append_assoc. reflexivity.
Qed.

(** C3.  The prompt holds the text as it is, as one run of characters,
    between two triple quotes under the heading of the story context.  This
    holds of every text, the non-empty ones among them. *)
Theorem build_journal_prompt_quotes_text (user_text context_type : string) :
  is_substring user_text (build_journal_prompt user_text context_type) /\
  is_substring (quotation_block user_text)
    (build_journal_prompt user_text context_type).
Proof.
  split.
  - apply (is_substring_intro (journal_0 ++ context_type ++ journal_1) _ journal_2).
    rewrite build_journal_prompt_pieces, !append_assoc. reflexivity.
  - eapply is_substring_intro. apply build_journal_prompt_layout.
Qed.

(** C8.  Two calls of [build_journal_prompt] with the same text and
    category return the same string, whatever the globals of the module
    hold at either call: every name the f-string reads is a parameter, so
    that the call returns the prompt computed from its two arguments
    alone. *)
Theorem build_journal_prompt_reads_only_arguments
  (globals1 globals2 : Namespace)
  (user_text1 context_type1 user_text2 context_type2 : string) :
  user_text1 = user_text2 -> context_type1 = context_type2 ->
  call_build_journal_prompt globals1 user_text1 context_type1
  = call_build_journal_prompt globals2 user_text2 context_type2 /\
  call_build_journal_prompt globals1 user_text1 context_type1
  = Return (build_journal_prompt user_text1 context_type1).
Proof.
  intros <- <-.
  assert (Hcall : forall globals,
             call_build_journal_prompt globals user_text1 context_type1
             = Return (build_journal_prompt user_text1 context_type1)).
  { intros globals. unfold call_build_journal_prompt, build_journal_prompt_fstring.
    cbn [format_fstring load_name build_journal_prompt_locals
         String.eqb Ascii.eqb Bool.eqb bind_result].
    reflexivity. }
  split; [now rewrite !Hcall | apply Hcall].
Qed.

Lemma build_journal_prompt_reads_only_arguments_witness :
  sea_text = "I swam across the sea at night" /\ "dream" = "dream" /\
  call_build_journal_prompt no_globals sea_text "dream"
  = call_build_journal_prompt busy_globals "I swam across the sea at night" "dream".
Proof.
  split; [reflexivity|]. split; [reflexivity|].
  exact (proj1 (build_journal_prompt_reads_only_arguments no_globals busy_globals
                  sea_text "dream" "I swam across the sea at night" "dream"
                  eq_refl eq_refl)).
Defined.

End JournalPrompt.

(** ** Markup in the prompts *)

Section PromptMarkup.

Lemma build_table_prompt_returns {Cell : Type} `{Pandas Cell}
  (df : DataFrame Cell) (summary : string) :
  summarize_dataframe df None = Return summary ->
  build_table_prompt df = Return (table_0 ++ summary ++ table_1).
Proof.
  intros Hs. rewrite build_table_prompt_pieces, Hs. reflexivity.
Qed.

Lemma journal_2_cut : journal_2 = journal_2_before ++ tag_instruction ++ journal_2_after.
Proof. vm_compute. reflexivity. Qed.

Lemma table_1_cut : table_1 = table_1_before ++ tag_instruction ++ table_1_after.
Proof. vm_compute. reflexivity. Qed.



End PromptMarkup.

(** ** Dataset summarizer and table prompt *)

Section Summarizer.

Context {Cell : Type} `{Pandas Cell}.

Lemma head_rows (df : DataFrame Cell) (k : Z) :
  (0 <= k)%Z -> rows (head k df) = firstn (Z.to_nat k) (rows df).
Proof.
  intros Hk. unfold head. cbn [rows].
  destruct (Z.ltb_spec k 0) as [Hneg|_]; [lia | reflexivity].
Qed.

Lemma head_no_rows (df : DataFrame Cell) (k : Z) :
  rows df = [] -> rows (head k df) = [].
Proof.
  intros Hrows. unfold head. cbn [rows]. rewrite Hrows. apply firstn_nil.
Qed.

(** *** The listing of the columns *)

Lemma filter_none {A : Type} (f : A -> bool) (l : list A) :
  (forall x, In x l -> f x = false) -> filter f l = [].
Proof.
  induction l as [|a l IH]; [reflexivity|]. intros Hall. cbn [filter].
  rewrite (Hall a (or_introl eq_refl)). apply IH. intros x Hx. apply Hall. now right.
Qed.

Lemma filter_label_unique (cols : list Column) (c : Column) :
  NoDup (map col_name cols) -> In c cols ->
  filter (fun c' => String.eqb (col_name c') (col_name c)) cols = [c].
Proof.
  induction cols as [|a cols IH]; [intros _ []|].
  cbn [map]. intros Hnd Hin. inversion Hnd as [|? ? Hnotin Hnd']; subst.
  cbn [filter]. destruct Hin as [->|Hin].
  - rewrite String.eqb_refl. f_equal. apply filter_none.
    intros x Hx. apply String.eqb_neq. intros Heq. apply Hnotin.
    rewrite <- Heq. now apply in_map.
  - destruct (String.eqb_spec (col_name a) (col_name c)) as [Heq|_].
    + exfalso. apply Hnotin. rewrite Heq. now apply in_map.
    + now apply IH.
Qed.

Lemma filter_label_singleton (cols : list Column) (c c' : Column) :
  In c cols ->
  filter (fun x => String.eqb (col_name x) (col_name c)) cols = [c'] -> c' = c.
Proof.
  intros Hin Hf.
  assert (Hc : In c (filter (fun x => String.eqb (col_name x) (col_name c)) cols)).
  { apply filter_In. split; [exact Hin | apply String.eqb_refl]. }
  rewrite Hf in Hc. destruct Hc as [Hc|[]]. exact Hc.
Qed.

Lemma singleton_filters_unique (cols : list Column) :
  (forall c, In c cols ->
     filter (fun x => String.eqb (col_name x) (col_name c)) cols = [c]) ->
  NoDup (map col_name cols).
Proof.
  induction cols as [|a cols IH]; [constructor|].
  intros Hall. cbn [map]. constructor.
  - intros Hin. apply in_map_iff in Hin as (x & Hname & Hx).
    pose proof (Hall a (or_introl eq_refl)) as Ha. cbn [filter] in Ha.
    rewrite String.eqb_refl in Ha. injection Ha as Ha.
    assert (Hxin : In x (filter (fun y => String.eqb (col_name y) (col_name a)) cols)).
    { apply filter_In. split; [exact Hx | now apply String.eqb_eq]. }
    rewrite Ha in Hxin. destruct Hxin.
  - apply IH. intros c Hc.
    pose proof (Hall c (or_intror Hc)) as Hf. cbn [filter] in Hf.
    destruct (String.eqb (col_name a) (col_name c)); [|exact Hf].
    injection Hf as -> Hf.
    assert (Hcin : In c (filter (fun y => String.eqb (col_name y) (col_name c)) cols)).
    { apply filter_In. split; [exact Hc | apply String.eqb_refl]. }
    rewrite Hf in Hcin. destruct Hcin.
Qed.

(** For a label of the frame, [df[col].dtype] is the dtype of the one column
    that carries it, or raises for want of [dtype]. *)
Lemma getitem_dtype_outcome (df : DataFrame Cell) (c : Column) :
  In c (columns df) ->
  (getitem_dtype df (col_name c) = Return (col_dtype c) /\
   filter (fun x => String.eqb (col_name x) (col_name c)) (columns df) = [c]) \/
  getitem_dtype df (col_name c) = Raise no_dtype.
Proof.
  intros Hin. unfold getitem_dtype.
  destruct (filter (fun x => String.eqb (col_name x) (col_name c)) (columns df))
    as [|c' [|c'' rest]] eqn:Hf.
  - assert (Hc : In c []); [|destruct Hc].
    rewrite <- Hf. apply filter_In. split; [exact Hin | apply String.eqb_refl].
  - left. now rewrite (filter_label_singleton _ _ _ Hin Hf).
  - right. reflexivity.
Qed.

Lemma listing_returns (df : DataFrame Cell) (cs : list Column) :
  NoDup (labels df) -> incl cs (columns df) ->
  comprehension (listing_entry df) (map col_name cs)
  = Return (map (fun c => col_name c ++ " (" ++ dtype_str (col_dtype c) ++ ")") cs).
Proof.
  intros Hnd. induction cs as [|c cs IH]; intros Hincl; [reflexivity|].
  cbn [map comprehension]. unfold listing_entry at 1, getitem_dtype.
  rewrite (filter_label_unique _ c Hnd (Hincl c (or_introl eq_refl))).
  cbn [bind_result]. rewrite IH; [reflexivity|].
  intros x Hx. apply Hincl. now right.
Qed.

Lemma listing_outcome (df : DataFrame Cell) (cs : list Column) :
  incl cs (columns df) ->
  (comprehension (listing_entry df) (map col_name cs)
   = Return (map (fun c => col_name c ++ " (" ++ dtype_str (col_dtype c) ++ ")") cs) /\
   forall c, In c cs ->
     filter (fun x => String.eqb (col_name x) (col_name c)) (columns df) = [c]) \/
  comprehension (listing_entry df) (map col_name cs) = Raise no_dtype.
Proof.
  induction cs as [|c cs IH]; intros Hincl.
  - left. split; [reflexivity | intros c []].
  - cbn [map comprehension]. unfold listing_entry at 1 3.
    destruct (getitem_dtype_outcome df c (Hincl c (or_introl eq_refl)))
      as [[Hd Hf]|Hd]; rewrite Hd; cbn [bind_result]; [|now right].
    destruct IH as [[Hl Hall]|Hl].
    + intros x Hx. apply Hincl. now right.
    + left. rewrite Hl. split; [reflexivity|].
      intros x [<-|Hx]; [exact Hf | now apply Hall].
    + right. now rewrite Hl.
Qed.

(** *** The summary *)

Lemma summarize_dataframe_unfold (df : DataFrame Cell) (max_rows : Z) :
  summarize_dataframe df (Some max_rows)
  = (listing <- comprehension (listing_entry df) (labels df) ;;
     stats <- describe_to_csv df ;;
     Return ("Columns:" ++ nl ++ String.concat ", " listing
             ++ rows_heading ++ to_csv_noindex (head max_rows df)
             ++ stats_heading ++ stats)).
Proof.
  unfold summarize_dataframe, labels, getvalue, write, StringIO.
  change (fun col : string =>
            dtype <- getitem_dtype df col ;;
            Return (col ++ " (" ++ dtype_str dtype ++ ")"))
    with (listing_entry df).
  destruct (comprehension (listing_entry df) (map col_name (columns df)));
    [|reflexivity].
  cbn [bind_result]. destruct (describe_to_csv df); [|reflexivity].
  cbn [bind_result]. f_equal. cbn [append]. rewrite !append_assoc. reflexivity.
Qed.

(** The summary of a frame that has a column and no repeated label, part by
    part. *)
Lemma summarize_dataframe_text (df : DataFrame Cell) (max_rows : Z) :
  columns df <> [] ->
  NoDup (labels df) ->
  summarize_dataframe df (Some max_rows)
  = Return ("Columns:" ++ nl ++ column_listing df
            ++ rows_heading ++ to_csv_noindex (head max_rows df)
            ++ stats_heading ++ describe_csv df).
Proof.
  intros Hcols Hnd. rewrite summarize_dataframe_unfold. unfold labels.
  rewrite (listing_returns df (columns df) Hnd (incl_refl _)).
  cbn [bind_result]. unfold describe_to_csv.
  destruct (columns df) as [|col cols] eqn:Hc; [congruence|].
  cbn [bind_result]. unfold column_listing. now rewrite Hc.
Qed.

(** Without a column the statistics cannot be computed, and the exception
    of pandas leaves the summarizer. *)
Lemma summarize_dataframe_no_columns (df : DataFrame Cell) (max_rows_arg : option Z) :
  columns df = [] ->
  summarize_dataframe df max_rows_arg
  = Raise (ValueError "Cannot describe a DataFrame without columns").
Proof.
  intros Hcols. unfold summarize_dataframe, describe_to_csv.
  rewrite Hcols. reflexivity.
Qed.

Lemma summarize_dataframe_default (df : DataFrame Cell) :
  summarize_dataframe df None = summarize_dataframe df (Some 5%Z).
Proof. reflexivity. Qed.

Lemma summarize_dataframe_returns (df : DataFrame Cell) (max_rows : Z) (s : string) :
  summarize_dataframe df (Some max_rows) = Return s -> columns df <> [].
Proof.
  intros Hs Hcols.
  rewrite (summarize_dataframe_no_columns df (Some max_rows) Hcols) in Hs.
  discriminate.
Qed.

(** A summary that is returned is that text, and the frame has a column and
    no repeated label. *)
Lemma summarize_dataframe_inv (df : DataFrame Cell) (max_rows : Z) (s : string) :
  summarize_dataframe df (Some max_rows) = Return s ->
  s = "Columns:" ++ nl ++ column_listing df
      ++ rows_heading ++ to_csv_noindex (head max_rows df)
      ++ stats_heading ++ describe_csv df
  /\ NoDup (labels df).
Proof.
  intros Hs.
  assert (Hnd : NoDup (labels df)).
  { rewrite summarize_dataframe_unfold in Hs. unfold labels in *.
    destruct (listing_outcome df (columns df) (incl_refl _)) as [[_ Hall]|Hl].
    - now apply singleton_filters_unique.
    - rewrite Hl in Hs. discriminate. }
  split; [|exact Hnd].
  rewrite (summarize_dataframe_text df max_rows
             (summarize_dataframe_returns df max_rows s Hs) Hnd) in Hs.
  now injection Hs.
Qed.

(** With a repeated label the listing of the columns raises. *)
Lemma summarize_dataframe_repeated_label (df : DataFrame Cell) (max_rows : Z) :
  ~ NoDup (labels df) ->
  summarize_dataframe df (Some max_rows) = Raise no_dtype.
Proof.
  intros Hdup. rewrite summarize_dataframe_unfold. unfold labels in *.
  destruct (listing_outcome df (columns df) (incl_refl _)) as [[_ Hall]|Hl].
  - exfalso. apply Hdup. now apply singleton_filters_unique.
  - now rewrite Hl.
Qed.

(** C4.  For [max_rows = k >= 0] the sample of the summary is the CSV text
    of the first [k] rows: the header record, then one record for each of
    the [min(k, rowcount)] leading rows, between the two headings.  The
    summary is returned whenever the frame has a column and no label twice,
    and a call without [max_rows] is the call with 5.  In the scenario of
    the specification
    the sample for [max_rows = 2] is the header and the records of the
    first two rows, without the third. *)
Theorem summarize_dataframe_sample_rows (df : DataFrame Cell) (k : Z) :
  (0 <= k)%Z ->
  let sample := head k df in
  rows sample = firstn (Z.to_nat k) (rows df) /\
  Z.of_nat (List.length (rows sample)) = Z.min k (Z.of_nat (List.length (rows df))) /\
  to_csv_noindex sample
  = csv_header df ++ String.concat "" (map csv_row_line (rows sample)) /\
  (forall s, summarize_dataframe df (Some k) = Return s ->
     s = "Columns:" ++ nl ++ column_listing df
         ++ rows_heading ++ to_csv_noindex sample ++ stats_heading ++ describe_csv df) /\
  (columns df <> [] -> NoDup (labels df) ->
   exists s, summarize_dataframe df (Some k) = Return s) /\
  summarize_dataframe df None = summarize_dataframe df (Some 5%Z) /\
  rows (head 2 scenario_df)
  = [[IntCell 5; StrCell "a"]; [IntCell 6; StrCell "b"]] /\
  to_csv_noindex (head 2 scenario_df)
  = "age,name" ++ nl ++ "5,a" ++ nl ++ "6,b" ++ nl /\
  substringb "7,c" (to_csv_noindex (head 2 scenario_df)) = false /\
  summarize_dataframe scenario_df (Some 2%Z)
  = Return ("Columns:" ++ nl ++ "age (int64), name (object)"
            ++ rows_heading ++ ("age,name" ++ nl ++ "5,a" ++ nl ++ "6,b" ++ nl)
            ++ stats_heading ++ scenario_describe_csv).
Proof.
  intros Hk sample. subst sample.
  split; [now apply head_rows|]. split.
  { rewrite (head_rows df k Hk), length_firstn. lia. }
  split; [reflexivity|]. split.
  { intros s Hs. exact (proj1 (summarize_dataframe_inv df k s Hs)). }
  split.
  { intros Hcols Hnd. eexists. now apply summarize_dataframe_text. }
  split; [apply summarize_dataframe_default|].
  repeat split; vm_compute; reflexivity.
Qed.

(** C7, as the code has it.  For a frame without rows the summarizer
    returns, whatever [max_rows] is, the column listing, a sample that is
    the header record alone and the statistics of pandas, provided the frame
    has a column and no label twice.  It has no handler for what pandas
    raises: for the frame without columns [describe] raises [ValueError],
    for a frame with a repeated label [df[col].dtype] raises
    [AttributeError], and the summarizer raises with them. *)
Theorem summarize_dataframe_no_rows (df : DataFrame Cell) (max_rows : Z) :
  rows df = [] ->
  (columns df <> [] -> NoDup (labels df) ->
   summarize_dataframe df (Some max_rows)
   = Return ("Columns:" ++ nl ++ column_listing df
             ++ rows_heading ++ csv_header df ++ stats_heading ++ describe_csv df)) /\
  (columns df = [] ->
   summarize_dataframe df (Some max_rows)
   = Raise (ValueError "Cannot describe a DataFrame without columns")) /\
  (~ NoDup (labels df) ->
   summarize_dataframe df (Some max_rows)
   = Raise (AttributeError "'DataFrame' object has no attribute 'dtype'")).
Proof.
  intros Hrows. split; [|split].
  - intros Hcols Hnd. rewrite (summarize_dataframe_text df max_rows Hcols Hnd).
    unfold to_csv_noindex. rewrite (head_no_rows df max_rows Hrows).
    cbn [map String.concat]. fold (csv_header df).
    change (csv_header (head max_rows df)) with (csv_header df).
    now rewrite append_nil_r.
  - apply summarize_dataframe_no_columns.
  - apply summarize_dataframe_repeated_label.
Qed.

Lemma build_table_prompt_layout (df : DataFrame Cell) (summary : string) :
  summarize_dataframe df (Some 5%Z) = Return summary ->
  build_table_prompt df
  = Return (drop_last 17 table_0
            ++ (dashes ++ nl ++ summary ++ nl ++ dashes ++ nl)
            ++ drop 18 table_1).
Proof.
  intros Hs. rewrite <- summarize_dataframe_default in Hs.
  rewrite (build_table_prompt_returns df summary Hs).
  f_equal. rewrite !append_assoc. reflexivity.
Qed.

(** C10.  The table prompt is built on the summary with the default cap:
    when [summarize_dataframe(df, 5)] returns a summary, the prompt is
    returned and holds the summary as it is between two lines of dashes;
    when it raises, so does the prompt builder. *)
Theorem build_table_prompt_embeds_summary (df : DataFrame Cell) (summary : string) :
  summarize_dataframe df (Some 5%Z) = Return summary ->
  exists pre post,
    build_table_prompt df
    = Return (pre ++ (dashes ++ nl ++ summary ++ nl ++ dashes ++ nl) ++ post).
Proof.
  intros Hs. exists (drop_last 17 table_0), (drop 18 table_1).
  now apply build_table_prompt_layout.
Qed.

End Summarizer.

Lemma summarize_dataframe_sample_rows_witness :
  (0 <= 2)%Z /\
  Z.of_nat (List.length (rows (head 2 scenario_df)))
  = Z.min 2 (Z.of_nat (List.length (rows scenario_df))).
Proof.
  split; [lia|].
  exact (proj1 (proj2 (summarize_dataframe_sample_rows scenario_df 2 ltac:(lia)))).
Defined.

Lemma scenario_labels_unique : NoDup (labels scenario_no_rows).
Proof.
  repeat constructor; cbn [In]; intuition discriminate.
Defined.

Lemma summarize_dataframe_no_rows_witness :
  rows scenario_no_rows = [] /\
  columns scenario_no_rows <> [] /\
  NoDup (labels scenario_no_rows) /\
  summarize_dataframe scenario_no_rows (Some 5%Z)
  = Return ("Columns:" ++ nl ++ "age (int64), name (object)"
            ++ rows_heading ++ ("age,name" ++ nl)
            ++ stats_heading ++ scenario_no_rows_describe_csv).
Proof.
  assert (Hcols : columns scenario_no_rows <> []) by discriminate.
  split; [reflexivity|]. split; [exact Hcols|]. split; [exact scenario_labels_unique|].
  exact (proj1 (summarize_dataframe_no_rows scenario_no_rows 5 eq_refl)
           Hcols scenario_labels_unique).
Defined.

(** C7, as the specification words it, fails for the frame that has neither
    rows nor columns: the summarizer raises. *)
Lemma summarize_dataframe_empty_raises :
  rows empty_df = [] /\
  summarize_dataframe empty_df None
  = Raise (ValueError "Cannot describe a DataFrame without columns").
Proof.
  split; reflexivity.
Qed.

Lemma build_table_prompt_embeds_summary_witness :
  summarize_dataframe scenario_df (Some 5%Z) = Return scenario_summary /\
  exists pre post,
    build_table_prompt scenario_df
    = Return (pre ++ (dashes ++ nl ++ scenario_summary ++ nl ++ dashes ++ nl) ++ post).
Proof.
  assert (Hs : summarize_dataframe scenario_df (Some 5%Z) = Return scenario_summary)
    by (vm_compute; reflexivity).
  split; [exact Hs|].
  exact (build_table_prompt_embeds_summary scenario_df scenario_summary Hs).
Defined.

(** ** The script *)

Section ScriptFacts.

Context {Cell : Type} `{Pandas Cell}.
Variables read_csv read_excel : UploadedFile -> result (DataFrame Cell).
Variable environ : Environ.
Variable remote : Remote.

Lemma truthy_true (s : string) : s <> "" -> truthy s = true.
Proof.
  destruct s; [congruence | reflexivity].
Qed.

Lemma generate_paperscript_unkeyed (prompt : string) (log : list Call) :
  truthy (GEMINI_API_KEY environ) = false ->
  generate_paperscript environ remote prompt log
  = (Return DEFAULT_FALLBACK_PAPERSCRIPT, log).
Proof.
  intros Hkey. unfold generate_paperscript. rewrite Hkey. reflexivity.
Qed.

(** The client adds at most its one request to the log. *)
Lemma generate_paperscript_log (prompt : string) (log : list Call) :
  snd (generate_paperscript environ remote prompt log)
  = (log ++ (if truthy (GEMINI_API_KEY environ) then [request prompt] else []))%list.
Proof.
  destruct (truthy (GEMINI_API_KEY environ)) eqn:Hkey.
  - now rewrite (generate_paperscript_keyed environ remote prompt log Hkey).
  - rewrite (generate_paperscript_unkeyed prompt log Hkey). cbn [snd].
    now rewrite app_nil_r.
Qed.

Local Ltac open_script :=
  unfold run, script, journal_mode, table_mode, show_visual.

Local Ltac app_step :=
  cbv beta iota zeta
    delta [bind_app emit configure call of_result try_except_Exception ret_app
           bind_result page calls api_key List.app fst snd negb documents errors warnings].

(** X1.  A click on Generate Visual with an entry that is empty or all
    whitespace: the run shows the error, renders no document and makes no
    remote call, and it ends normally. *)
Theorem blank_entry_rejected (widgets : Widgets) (log : list Call) :
  mode widgets = "Journal / Dream Text" ->
  generate_visual widgets = true ->
  strip (user_text widgets) = "" ->
  let out := run read_csv read_excel environ remote widgets log in
  fst out = Return tt /\
  calls (snd out) = log /\
  documents (page (snd out)) = [] /\
  errors (page (snd out)) = ["Please write something first."].
Proof.
  intros Hmode Hclick Hblank out. subst out. open_script.
  rewrite Hmode, Hclick, Hblank. cbn [String.eqb Ascii.eqb Bool.eqb truthy negb].
  destruct (truthy (GEMINI_API_KEY environ)); app_step; repeat split; reflexivity.
Qed.

Local Ltac branches :=
  repeat (app_step;
          match goal with
          | |- context [if ?b then _ else _] => destruct b eqn:?
          | |- context [match ?x with Some _ => _ | None => _ end] => destruct x eqn:?
          | |- context [match ?x with Return _ => _ | Raise _ => _ end] => destruct x eqn:?
          | |- context [generate_paperscript ?e ?r ?p ?l] =>
              destruct (generate_paperscript e r p l) eqn:?
          end);
  app_step.

(** X2.  A run that follows no click on a Generate button makes no remote
    call and renders no document, whatever the mode, the entry and the
    uploaded file, and it ends normally even when the file cannot be
    read. *)
Theorem no_click_no_generation (widgets : Widgets) (log : list Call) :
  generate_visual widgets = false ->
  generate_grid widgets = false ->
  let out := run read_csv read_excel environ remote widgets log in
  fst out = Return tt /\ calls (snd out) = log /\ documents (page (snd out)) = [].
Proof.
  intros Hvisual Hgrid out. subst out. open_script. rewrite Hvisual, Hgrid.
  branches; repeat split; reflexivity.
Qed.

(** X3.  Journal mode, a click and an entry that is not blank: the client is
    run once on the journal prompt of the entry and its category.  When it
    returns a script, the page shows one document, the wrapper's output for
    that script with the default canvas, and no error; when it raises, the
    exception ends the run and no document is shown. *)
Theorem journal_generation (widgets : Widgets) (log : list Call) :
  mode widgets = "Journal / Dream Text" ->
  generate_visual widgets = true ->
  strip (user_text widgets) <> "" ->
  let prompt := build_journal_prompt (user_text widgets) (context_type widgets) in
  let gen := generate_paperscript environ remote prompt log in
  let out := run read_csv read_excel environ remote widgets log in
  calls (snd out) = snd gen /\
  match fst gen with
  | Return paperscript =>
      fst out = Return tt /\
      documents (page (snd out)) = [build_paper_html paperscript None] /\
      errors (page (snd out)) = []
  | Raise e => fst out = Raise e /\ documents (page (snd out)) = []
  end.
Proof.
  intros Hmode Hclick Htext prompt gen out. subst prompt gen out. open_script.
  rewrite Hmode, Hclick, (truthy_true _ Htext).
  cbn [String.eqb Ascii.eqb Bool.eqb negb].
  destruct (generate_paperscript environ remote
              (build_journal_prompt (user_text widgets) (context_type widgets)) log)
    as [[paperscript|e] log'] eqn:Hgen;
    destruct (truthy (GEMINI_API_KEY environ)); app_step; rewrite Hgen;
    repeat split; reflexivity.
Qed.

(** X4.  Without a credential no run makes a remote call or configures the
    SDK, and the only document a run can show is the wrapper's output for
    the fallback script; a click in journal mode with an entry that is not
    blank shows it, whatever the entry and its category. *)
Theorem no_credential_fallback (widgets : Widgets) (log : list Call) :
  GEMINI_API_KEY environ = "" ->
  let out := run read_csv read_excel environ remote widgets log in
  let fallback := build_paper_html DEFAULT_FALLBACK_PAPERSCRIPT None in
  calls (snd out) = log /\
  api_key (snd out) = None /\
  (documents (page (snd out)) = [] \/ documents (page (snd out)) = [fallback]) /\
  (mode widgets = "Journal / Dream Text" -> generate_visual widgets = true ->
   strip (user_text widgets) <> "" ->
   fst out = Return tt /\ documents (page (snd out)) = [fallback]).
Proof.
  intros Hkey out fallback. subst out fallback.
  assert (Hfalse : truthy (GEMINI_API_KEY environ) = false) by now rewrite Hkey.
  assert (Hgen : forall prompt,
             generate_paperscript environ remote prompt log
             = (Return DEFAULT_FALLBACK_PAPERSCRIPT, log))
    by (intros prompt; now apply generate_paperscript_unkeyed).
  open_script. rewrite Hfalse. split; [|split; [|split]].
  1-3: branches;
       repeat match goal with
              | Hg : generate_paperscript _ _ _ _ = _ |- _ =>
                  rewrite Hgen in Hg; inversion Hg; subst; clear Hg
              end;
       auto.
  intros Hmode Hclick Htext. rewrite Hmode, Hclick, (truthy_true _ Htext).
  cbn [String.eqb Ascii.eqb Bool.eqb]. app_step. rewrite Hgen. app_step.
  split; reflexivity.
Qed.

(** X5.  Table mode, a file that is read into a frame, and a click: when the
    table prompt of the frame is built, the client is run once on it; a
    script it returns is shown as one document, the wrapper's output with the
    default canvas, and an exception it raises ends the run without a
    document. *)
Theorem table_generation (widgets : Widgets) (log : list Call)
  (file : UploadedFile) (df : DataFrame Cell) (prompt : string) :
  mode widgets <> "Journal / Dream Text" ->
  uploaded widgets = Some file ->
  reader read_csv read_excel file = Return df ->
  generate_grid widgets = true ->
  build_table_prompt df = Return prompt ->
  let gen := generate_paperscript environ remote prompt log in
  let out := run read_csv read_excel environ remote widgets log in
  calls (snd out) = snd gen /\
  match fst gen with
  | Return paperscript =>
      fst out = Return tt /\
      documents (page (snd out)) = [build_paper_html paperscript None] /\
      errors (page (snd out)) = []
  | Raise e => fst out = Raise e /\ documents (page (snd out)) = []
  end.
Proof.
  intros Hmode Hfile Hread Hclick Hprompt gen out. subst gen out. unfold reader in Hread.
  apply String.eqb_neq in Hmode. open_script.
  rewrite Hmode, Hfile, Hclick. app_step. rewrite Hread. app_step. rewrite Hprompt.
  destruct (generate_paperscript environ remote prompt log)
    as [[paperscript|e] log'] eqn:Hgen;
    destruct (truthy (GEMINI_API_KEY environ)); app_step; rewrite ?Hprompt; app_step;
    rewrite Hgen; repeat split; reflexivity.
Qed.

(** X6.  Table mode and a file the reader cannot read: the exception is
    caught, its message is shown after the words of the script, and the run
    ends normally without a remote call or a document, click or not. *)
Theorem unreadable_upload_reported (widgets : Widgets) (log : list Call)
  (file : UploadedFile) (e : exn) :
  mode widgets <> "Journal / Dream Text" ->
  uploaded widgets = Some file ->
  reader read_csv read_excel file = Raise e ->
  let out := run read_csv read_excel environ remote widgets log in
  fst out = Return tt /\
  calls (snd out) = log /\
  documents (page (snd out)) = [] /\
  errors (page (snd out)) = ["Error reading file: " ++ exn_str e].
Proof.
  intros Hmode Hfile Hread out. subst out. unfold reader in Hread.
  apply String.eqb_neq in Hmode. open_script.
  rewrite Hmode, Hfile. app_step. rewrite Hread.
  destruct (truthy (GEMINI_API_KEY environ)); app_step; repeat split; reflexivity.
Qed.

(** X7.  Table mode, a frame without columns and a click: the statistics of
    the summary cannot be computed, the [ValueError] of pandas ends the run,
    and neither a remote call nor a document follows, with or without a
    credential. *)
Theorem table_without_columns_raises (widgets : Widgets) (log : list Call)
  (file : UploadedFile) (df : DataFrame Cell) :
  mode widgets <> "Journal / Dream Text" ->
  uploaded widgets = Some file ->
  reader read_csv read_excel file = Return df ->
  columns df = [] ->
  generate_grid widgets = true ->
  let out := run read_csv read_excel environ remote widgets log in
  fst out = Raise (ValueError "Cannot describe a DataFrame without columns") /\
  calls (snd out) = log /\
  documents (page (snd out)) = [].
Proof.
  intros Hmode Hfile Hread Hcols Hclick out. subst out. unfold reader in Hread.
  apply String.eqb_neq in Hmode.
  assert (Hprompt : build_table_prompt df
                    = Raise (ValueError "Cannot describe a DataFrame without columns")).
  { rewrite build_table_prompt_pieces.
    now rewrite (summarize_dataframe_no_columns df None Hcols). }
  open_script. rewrite Hmode, Hfile, Hclick. app_step. rewrite Hread. app_step.
  rewrite Hprompt.
  destruct (truthy (GEMINI_API_KEY environ)); app_step; rewrite ?Hprompt; app_step;
    repeat split; reflexivity.
Qed.

(** X8.  A run adds at most one call to the log of the remote service, and
    only with a credential: the log is left as it was, or extended by one
    request for the model gemini-1.5-pro at temperature 0.9. *)
Theorem at_most_one_remote_call (widgets : Widgets) (log : list Call) :
  let out := run read_csv read_excel environ remote widgets log in
  calls (snd out) = log \/
  (truthy (GEMINI_API_KEY environ) = true /\
   exists prompt, calls (snd out) = (log ++ [request prompt])%list).
Proof.
  intros out. subst out. open_script.
  destruct (truthy (GEMINI_API_KEY environ)) eqn:Hkey.
  - branches;
      try (left; reflexivity);
      match goal with
      | Hgen : generate_paperscript environ remote ?prompt log = (_, _) |- _ =>
          right; split; [reflexivity|]; exists prompt;
          pose proof (generate_paperscript_log prompt log) as Hlog;
          rewrite Hgen, Hkey in Hlog; exact Hlog
      end.
  - left. branches;
      try reflexivity;
      match goal with
      | Hgen : generate_paperscript environ remote ?prompt log = (_, _) |- _ =>
          pose proof (generate_paperscript_log prompt log) as Hlog;
          rewrite Hgen, Hkey, app_nil_r in Hlog; exact Hlog
      end.
Qed.

(** X9.  A run shows at most one document.  When it shows one, the run has
    ended normally without an error on the page, and the document is the
    wrapper's output, with the default canvas, for a script that it holds as
    it is. *)
Theorem at_most_one_document (widgets : Widgets) (log : list Call) :
  let out := run read_csv read_excel environ remote widgets log in
  documents (page (snd out)) = [] \/
  (fst out = Return tt /\
   errors (page (snd out)) = [] /\
   exists paperscript,
     documents (page (snd out)) = [build_paper_html paperscript None] /\
     is_substring paperscript (build_paper_html paperscript None)).
Proof.
  intros out. subst out. open_script.
  branches;
    first
      [ left; reflexivity
      | right; split;
        [ reflexivity
        | split;
          [ reflexivity
          | eexists; split;
            [ reflexivity | apply (build_paper_html_holds_script _ "dreamCanvas") ] ] ] ].
Qed.

(** X10.  Every run, also one that an exception ends, tells a missing
    credential in the sidebar and gives a present one to the SDK: the
    warning is on the page exactly when the key is empty, and
    [genai.configure] has received the key exactly when it is not. *)
Theorem credential_signalled (widgets : Widgets) (log : list Call) :
  let out := run read_csv read_excel environ remote widgets log in
  let key := GEMINI_API_KEY environ in
  warnings (page (snd out))
  = (if truthy key then []
     else ["No GEMINI_API_KEY found ‚Äì using fallback static demo."]) /\
  api_key (snd out) = (if truthy key then Some key else None).
Proof.
  intros out key. subst out key. open_script.
  branches; split; reflexivity.
Qed.

(** X11.  Journal mode reads neither the uploaded file nor the click on
    Generate Grid Visual, and never runs a reader: two runs that agree on
    the entry, its category and the click on Generate Visual are the same
    run. *)
Theorem journal_mode_ignores_upload
  (read_csv' read_excel' : UploadedFile -> result (DataFrame Cell))
  (widgets widgets' : Widgets) (log : list Call) :
  mode widgets = "Journal / Dream Text" ->
  mode widgets' = "Journal / Dream Text" ->
  context_type widgets = context_type widgets' ->
  user_text widgets = user_text widgets' ->
  generate_visual widgets = generate_visual widgets' ->
  run read_csv read_excel environ remote widgets log
  = run read_csv' read_excel' environ remote widgets' log.
Proof.
  intros Hmode Hmode' Htype Htext Hclick. open_script.
  rewrite Hmode, Hmode', Htype, Htext, Hclick. reflexivity.
Qed.

Lemma lower_app (a b : string) : lower (a ++ b) = lower a ++ lower b.
Proof.
  induction a as [|c a IH]; cbn [lower append]; [reflexivity | now rewrite IH].
Qed.

Lemma endswith_app (a suffix : string) : endswith (a ++ suffix) suffix = true.
Proof.
  induction a as [|c a IH].
  - cbn [append]. destruct suffix; cbn [endswith]; now rewrite String.eqb_refl.
  - cbn [append endswith]. rewrite IH. now destruct (String.eqb _ _).
Qed.

(** X12.  The reader is chosen by the end of the file name whatever the case
    of its letters: a file whose name ends in [.csv], [.CSV] or a mix of the
    two is read by [read_csv] and [read_excel] is never run on it; every
    other file is read by [read_excel] alone. *)
Theorem reader_chosen_by_suffix
  (read_csv' read_excel' : UploadedFile -> result (DataFrame Cell))
  (widgets : Widgets) (log : list Call) (file : UploadedFile) :
  uploaded widgets = Some file ->
  (forall base ext, name file = base ++ ext -> lower ext = ".csv" ->
     reader read_csv read_excel file = read_csv file /\
     run read_csv read_excel environ remote widgets log
     = run read_csv read_excel' environ remote widgets log) /\
  (endswith (lower (name file)) ".csv" = false ->
     reader read_csv read_excel file = read_excel file /\
     run read_csv read_excel environ remote widgets log
     = run read_csv' read_excel environ remote widgets log).
Proof.
  intros Hfile. split.
  - intros base ext Hname Hext.
    assert (Hcsv : endswith (lower (name file)) ".csv" = true).
    { rewrite Hname, lower_app, Hext. apply endswith_app. }
    split; [unfold reader; now rewrite Hcsv|].
    open_script. rewrite Hfile. cbv beta iota. rewrite Hcsv. reflexivity.
  - intros Hother.
    split; [unfold reader; now rewrite Hother|].
    open_script. rewrite Hfile. cbv beta iota. rewrite Hother. reflexivity.
Qed.

End ScriptFacts.

(** ** Further facts on the wrapper, the prompts and the summary *)

Section FurtherFacts.

Lemma length_append (a b : string) :
  String.length (a ++ b) = String.length a + String.length b.
Proof.
  induction a as [|c a IH]; cbn [append String.length]; [reflexivity | now rewrite IH].
Qed.

Lemma append_inv_head (a x y : string) : a ++ x = a ++ y -> x = y.
Proof.
  induction a as [|c a IH]; cbn [append]; [trivial|].
  intros [= Heq]. now apply IH.
Qed.

Lemma append_inv_tail (b x y : string) : x ++ b = y ++ b -> x = y.
Proof.
  revert y. induction x as [|c x IH]; intros [|d y] Heq.
  - reflexivity.
  - apply (f_equal String.length) in Heq. cbn [append String.length] in Heq.
    rewrite length_append in Heq. lia.
  - apply (f_equal String.length) in Heq. cbn [append String.length] in Heq.
    rewrite length_append in Heq. lia.
  - cbn [append] in Heq. injection Heq as -> Heq. f_equal. now apply IH.
Qed.

(** X13.  The wrapper loses nothing of the script: for one canvas
    identifier, given or left to its default, two scripts with the same
    document are the same script. *)
Theorem build_paper_html_injective
  (canvas_id_arg : option string) (script1 script2 : string) :
  build_paper_html script1 canvas_id_arg = build_paper_html script2 canvas_id_arg ->
  script1 = script2.
Proof.
  assert (Hsome : forall canvas_id,
             build_paper_html script1 (Some canvas_id)
             = build_paper_html script2 (Some canvas_id) -> script1 = script2).
  { intros canvas_id. rewrite !build_paper_html_pieces. intros Heq.
    do 5 apply append_inv_head in Heq. now apply append_inv_tail in Heq. }
  destruct canvas_id_arg as [canvas_id|]; [apply Hsome | apply (Hsome "dreamCanvas")].
Qed.

(** X14.  For the kinds of entry the selectbox offers, the journal prompt
    tells both the kind and the text: two prompts that are equal come from
    the same kind and the same text. *)
Theorem build_journal_prompt_injective
  (user_text1 context_type1 user_text2 context_type2 : string) :
  In context_type1 context_types ->
  In context_type2 context_types ->
  build_journal_prompt user_text1 context_type1
  = build_journal_prompt user_text2 context_type2 ->
  context_type1 = context_type2 /\ user_text1 = user_text2.
Proof.
  intros Hin1 Hin2. rewrite !build_journal_prompt_pieces. intros Heq.
  apply append_inv_head in Heq.
  assert (Hkind : context_type1 = context_type2).
  { cbn [In context_types] in Hin1, Hin2.
    destruct Hin1 as [<-|[<-|[<-|[<-|[]]]]];
      destruct Hin2 as [<-|[<-|[<-|[<-|[]]]]];
      first [reflexivity | cbn [append] in Heq; congruence]. }
  split; [exact Hkind|]. subst context_type2.
  do 2 apply append_inv_head in Heq. now apply append_inv_tail in Heq.
Qed.

(** X15.  The journal prompt names the kind of entry in its goal line, as
    it was given. *)
Theorem build_journal_prompt_names_kind (user_text context_type : string) :
  is_substring ("- Turn the following " ++ context_type ++ " journal text")
    (build_journal_prompt user_text context_type).
Proof.
  apply (is_substring_intro (drop_last 21 journal_0) _
           (drop 13 journal_1 ++ user_text ++ journal_2)).
  rewrite build_journal_prompt_pieces, !append_assoc. reflexivity.
Qed.

Lemma concat_member (sep x : string) (xs : list string) :
  In x xs -> is_substring x (String.concat sep xs).
Proof.
  induction xs as [|y ys IH]; [intros []|].
  intros [->|Hin].
  - destruct ys as [|z ys]; cbn [String.concat].
    + exists "", "". now rewrite append_nil_r.
    + now exists "", (sep ++ String.concat sep (z :: ys)).
  - destruct ys as [|z ys]; [destruct Hin|].
    destruct (IH Hin) as (pre & post & Heq).
    exists (y ++ sep ++ pre), post.
    change (String.concat sep (y :: z :: ys))
      with (y ++ sep ++ String.concat sep (z :: ys)).
    rewrite Heq, !append_assoc. reflexivity.
Qed.

Context {Cell : Type} `{Pandas Cell}.

(** X16.  A summary that is returned lists every column of the frame, by
    its name followed by its dtype between parentheses. *)
Theorem summarize_dataframe_lists_columns
  (df : DataFrame Cell) (max_rows_arg : option Z) (summary : string) (col : Column) :
  summarize_dataframe df max_rows_arg = Return summary ->
  In col (columns df) ->
  is_substring (col_name col ++ " (" ++ dtype_str (col_dtype col) ++ ")") summary.
Proof.
  intros Hs Hin.
  assert (Hk : exists k, summarize_dataframe df (Some k) = Return summary).
  { destruct max_rows_arg as [k|]; [now exists k|].
    exists 5%Z. now rewrite <- summarize_dataframe_default. }
  destruct Hk as [k Hk].
  destruct (summarize_dataframe_inv df k summary Hk) as [-> _].
  assert (Hlisted : is_substring
                      (col_name col ++ " (" ++ dtype_str (col_dtype col) ++ ")")
                      (column_listing df)).
  { apply concat_member.
    apply (in_map (fun c => col_name c ++ " (" ++ dtype_str (col_dtype c) ++ ")")).
    exact Hin. }
  destruct Hlisted as (pre & post & ->).
  exists ("Columns:" ++ nl ++ pre),
    (post ++ rows_heading ++ to_csv_noindex (head k df) ++ stats_heading
     ++ describe_csv df).
  rewrite !append_assoc. reflexivity.
Qed.

(** X17.  A frame that has no more rows than [max_rows] is sampled whole:
    whenever its summary is returned, the sample of the summary is the CSV
    text of the frame, header and every row; and the summary is returned
    when the frame has a column and no label twice. *)
Theorem summarize_dataframe_samples_all (df : DataFrame Cell) (max_rows : Z) :
  (Z.of_nat (List.length (rows df)) <= max_rows)%Z ->
  (forall summary, summarize_dataframe df (Some max_rows) = Return summary ->
     summary = "Columns:" ++ nl ++ column_listing df
               ++ rows_heading ++ to_csv_noindex df
               ++ stats_heading ++ describe_csv df) /\
  (columns df <> [] -> NoDup (labels df) ->
   summarize_dataframe df (Some max_rows)
   = Return ("Columns:" ++ nl ++ column_listing df
             ++ rows_heading ++ to_csv_noindex df
             ++ stats_heading ++ describe_csv df)).
Proof.
  intros Hall.
  assert (Hhead : head max_rows df = df).
  { unfold head. destruct (Z.ltb_spec max_rows 0) as [Hneg|Hpos]; [lia|].
    rewrite firstn_all2 by lia. now destruct df. }
  split.
  - intros summary Hs.
    destruct (summarize_dataframe_inv df max_rows summary Hs) as [-> _].
    now rewrite Hhead.
  - intros Hcols Hnd. rewrite (summarize_dataframe_text df max_rows Hcols Hnd).
    now rewrite Hhead.
Qed.

End FurtherFacts.

(** ** The properties at the inputs of the examples *)

Lemma blank_entry_rejected_witness :
  mode (journal_widgets "   " true) = "Journal / Dream Text" /\
  generate_visual (journal_widgets "   " true) = true /\
  strip (user_text (journal_widgets "   " true)) = "" /\
  errors (page (snd (run scenario_reader scenario_reader keyed_environ plain_remote
                       (journal_widgets "   " true) [])))
  = ["Please write something first."].
Proof.
  do 3 (split; [reflexivity|]).
  exact (proj2 (proj2 (proj2
           (blank_entry_rejected scenario_reader scenario_reader keyed_environ
              plain_remote (journal_widgets "   " true) [] eq_refl eq_refl eq_refl)))).
Defined.

Lemma no_click_no_generation_witness :
  generate_visual (table_widgets "a.csv" false) = false /\
  generate_grid (table_widgets "a.csv" false) = false /\
  calls (snd (run scenario_reader scenario_reader keyed_environ plain_remote
                (table_widgets "a.csv" false) []))
  = [].
Proof.
  do 2 (split; [reflexivity|]).
  exact (proj1 (proj2
           (no_click_no_generation scenario_reader scenario_reader keyed_environ
              plain_remote (table_widgets "a.csv" false) [] eq_refl eq_refl))).
Defined.

Lemma journal_generation_witness :
  mode (journal_widgets sea_text true) = "Journal / Dream Text" /\
  generate_visual (journal_widgets sea_text true) = true /\
  strip (user_text (journal_widgets sea_text true)) <> "" /\
  calls (snd (run scenario_reader scenario_reader keyed_environ plain_remote
                (journal_widgets sea_text true) []))
  = [request (build_journal_prompt sea_text "dream")].
Proof.
  assert (Htext : strip (user_text (journal_widgets sea_text true)) <> "")
    by (vm_compute; discriminate).
  do 2 (split; [reflexivity|]). split; [exact Htext|].
  exact (proj1
           (journal_generation scenario_reader scenario_reader keyed_environ
              plain_remote (journal_widgets sea_text true) [] eq_refl eq_refl Htext)).
Defined.

Lemma no_credential_fallback_witness :
  GEMINI_API_KEY no_environ = "" /\
  calls (snd (run scenario_reader scenario_reader no_environ plain_remote
                (journal_widgets sea_text true) []))
  = [].
Proof.
  split; [reflexivity|].
  exact (proj1
           (no_credential_fallback scenario_reader scenario_reader no_environ
              plain_remote (journal_widgets sea_text true) [] eq_refl)).
Defined.

Lemma table_generation_witness :
  mode (table_widgets "a.csv" true) <> "Journal / Dream Text" /\
  uploaded (table_widgets "a.csv" true) = Some {| name := "a.csv"; data := "" |} /\
  reader scenario_reader scenario_reader {| name := "a.csv"; data := "" |}
  = Return scenario_df /\
  generate_grid (table_widgets "a.csv" true) = true /\
  build_table_prompt scenario_df
  = Return (table_0 ++ scenario_summary ++ table_1) /\
  calls (snd (run scenario_reader scenario_reader keyed_environ plain_remote
                (table_widgets "a.csv" true) []))
  = [request (table_0 ++ scenario_summary ++ table_1)].
Proof.
  assert (Hmode : mode (table_widgets "a.csv" true) <> "Journal / Dream Text")
    by discriminate.
  assert (Hprompt : build_table_prompt scenario_df
                    = Return (table_0 ++ scenario_summary ++ table_1))
    by (vm_compute; reflexivity).
  split; [exact Hmode|]. do 3 (split; [reflexivity|]). split; [exact Hprompt|].
  exact (proj1
           (table_generation scenario_reader scenario_reader keyed_environ plain_remote
              (table_widgets "a.csv" true) [] {| name := "a.csv"; data := "" |}
              scenario_df _ Hmode eq_refl eq_refl eq_refl Hprompt)).
Defined.

Lemma unreadable_upload_reported_witness :
  mode (table_widgets "a.csv" true) <> "Journal / Dream Text" /\
  uploaded (table_widgets "a.csv" true) = Some {| name := "a.csv"; data := "" |} /\
  reader failing_reader scenario_reader {| name := "a.csv"; data := "" |}
  = Raise (ValueError "No columns to parse from file") /\
  errors (page (snd (run failing_reader scenario_reader keyed_environ plain_remote
                       (table_widgets "a.csv" true) [])))
  = ["Error reading file: No columns to parse from file"].
Proof.
  assert (Hmode : mode (table_widgets "a.csv" true) <> "Journal / Dream Text")
    by discriminate.
  split; [exact Hmode|]. do 2 (split; [reflexivity|]).
  exact (proj2 (proj2 (proj2
           (unreadable_upload_reported failing_reader scenario_reader keyed_environ
              plain_remote (table_widgets "a.csv" true) []
              {| name := "a.csv"; data := "" |} _ Hmode eq_refl eq_refl)))).
Defined.

Lemma table_without_columns_raises_witness :
  mode (table_widgets "empty.xlsx" true) <> "Journal / Dream Text" /\
  uploaded (table_widgets "empty.xlsx" true)
  = Some {| name := "empty.xlsx"; data := "" |} /\
  reader scenario_reader empty_reader {| name := "empty.xlsx"; data := "" |}
  = Return empty_df /\
  columns empty_df = [] /\
  generate_grid (table_widgets "empty.xlsx" true) = true /\
  fst (run scenario_reader empty_reader no_environ plain_remote
         (table_widgets "empty.xlsx" true) [])
  = Raise (ValueError "Cannot describe a DataFrame without columns").
Proof.
  assert (Hmode : mode (table_widgets "empty.xlsx" true) <> "Journal / Dream Text")
    by discriminate.
  split; [exact Hmode|]. do 4 (split; [reflexivity|]).
  exact (proj1
           (table_without_columns_raises scenario_reader empty_reader no_environ
              plain_remote (table_widgets "empty.xlsx" true) []
              {| name := "empty.xlsx"; data := "" |} empty_df
              Hmode eq_refl eq_refl eq_refl eq_refl)).
Defined.

Lemma journal_mode_ignores_upload_witness :
  mode (journal_widgets sea_text true) = "Journal / Dream Text" /\
  run scenario_reader scenario_reader keyed_environ plain_remote
    (journal_widgets sea_text true) []
  = run failing_reader empty_reader keyed_environ plain_remote
      {| mode := "Journal / Dream Text"; context_type := "dream";
         user_text := sea_text; generate_visual := true;
         uploaded := Some {| name := "a.csv"; data := "" |};
         generate_grid := true |} [].
Proof.
  split; [reflexivity|].
  apply journal_mode_ignores_upload; reflexivity.
Defined.

Lemma reader_chosen_by_suffix_witness :
  uploaded (table_widgets "Data.CSV" true) = Some {| name := "Data.CSV"; data := "" |} /\
  lower ".CSV" = ".csv" /\
  reader scenario_reader failing_reader {| name := "Data.CSV"; data := "" |}
  = Return scenario_df.
Proof.
  do 2 (split; [reflexivity|]).
  exact (proj1
           (proj1
              (reader_chosen_by_suffix scenario_reader failing_reader keyed_environ
                 plain_remote scenario_reader failing_reader
                 (table_widgets "Data.CSV" true) []
                 {| name := "Data.CSV"; data := "" |} eq_refl)
              "Data" ".CSV" eq_refl eq_refl)).
Defined.

Lemma build_paper_html_injective_witness :
  build_paper_html sea_text None = build_paper_html "I swam across the sea at night" None /\
  sea_text = "I swam across the sea at night".
Proof.
  split; [reflexivity|].
  exact (build_paper_html_injective None sea_text "I swam across the sea at night"
           eq_refl).
Defined.

Lemma build_journal_prompt_injective_witness :
  In "memory" context_types /\
  build_journal_prompt sea_text "memory"
  = build_journal_prompt "I swam across the sea at night" "memory" /\
  sea_text = "I swam across the sea at night".
Proof.
  assert (Hin : In "memory" context_types) by (right; left; reflexivity).
  split; [exact Hin|]. split; [reflexivity|].
  exact (proj2
           (build_journal_prompt_injective sea_text "memory"
              "I swam across the sea at night" "memory" Hin Hin eq_refl)).
Defined.

Lemma summarize_dataframe_lists_columns_witness :
  summarize_dataframe scenario_df (Some 5%Z) = Return scenario_summary /\
  In {| col_name := "name"; col_dtype := object |} (columns scenario_df) /\
  is_substring "name (object)" scenario_summary.
Proof.
  assert (Hs : summarize_dataframe scenario_df (Some 5%Z) = Return scenario_summary)
    by (vm_compute; reflexivity).
  assert (Hin : In {| col_name := "name"; col_dtype := object |} (columns scenario_df))
    by (right; left; reflexivity).
  split; [exact Hs|]. split; [exact Hin|].
  exact (summarize_dataframe_lists_columns scenario_df (Some 5%Z) scenario_summary
           {| col_name := "name"; col_dtype := object |} Hs Hin).
Defined.

Lemma summarize_dataframe_samples_all_witness :
  (Z.of_nat (List.length (rows scenario_df)) <= 5)%Z /\
  summarize_dataframe scenario_df (Some 5%Z)
  = Return ("Columns:" ++ nl ++ column_listing scenario_df
            ++ rows_heading ++ to_csv_noindex scenario_df
            ++ stats_heading ++ describe_csv scenario_df).
Proof.
  assert (Hall : (Z.of_nat (List.length (rows scenario_df)) <= 5)%Z)
    by (vm_compute; discriminate).
  assert (Hcols : columns scenario_df <> []) by discriminate.
  split; [exact Hall|].
  exact (proj2 (summarize_dataframe_samples_all scenario_df 5 Hall)
           Hcols scenario_labels_unique).
Defined.
